(** * Image_model: the Flask front end of the deepfake / forgery detector

    A shallow embedding of [src/app.py].  The module keeps three globals
    (the two folders and the allow-list), builds one [detector] object when
    it is imported, and serves [/analyze], which validates an upload,
    stores it under its sanitised name, dispatches on the extension of
    that name and on the requested analysis type, and wraps the dispatch
    in one [try/except].

    Python [str] values are Rocq strings, Python [float] is IEEE binary64
    given by the Standard Library's executable [spec_float] operations, a
    [dict] is an association list in insertion order, and the handler runs
    in a small state-and-exception monad over the file system, the module
    globals and a trace of the calls it makes.  The detector class, which
    [app.py] imports from [model], the two library functions
    [secure_filename] and [url_for], and the answer of the operating
    system to [file.save] are parameters of the handler;
    [EngineSpec] describes the three engine operations as the
    specification words them. *)

From Stdlib Require Import ZArith QArith List String Ascii Bool Lia.
From Stdlib Require Import Floats.SpecFloat.
From Stdlib Require Import DecimalString.
Import ListNotations.

Local Open Scope string_scope.
Local Open Scope Z_scope.

(** ** Python strings *)

Module PyStr.

Definition chars (s : string) : list ascii := list_ascii_of_string s.
Definition of_chars (l : list ascii) : string := string_of_list_ascii l.

Definition code (c : ascii) : N := N_of_ascii c.

Definition is_upper (c : ascii) : bool :=
  (N.leb 65 (code c) && N.leb (code c) 90)%bool.
Definition is_lower (c : ascii) : bool :=
  (N.leb 97 (code c) && N.leb (code c) 122)%bool.
Definition is_digit (c : ascii) : bool :=
  (N.leb 48 (code c) && N.leb (code c) 57)%bool.

(** [c.lower()] on the ASCII range. *)
Definition lower_char (c : ascii) : ascii :=
  if is_upper c then ascii_of_N (code c + 32) else c.

(** [s.lower()] *)
Fixpoint lower (s : string) : string :=
  match s with
  | EmptyString => EmptyString
  | String c s' => String (lower_char c) (lower s')
  end.

(** ['.' in s] *)
Fixpoint contains (c : ascii) (s : string) : bool :=
  match s with
  | EmptyString => false
  | String d s' => if Ascii.eqb c d then true else contains c s'
  end.

(** The two halves of [s] around its last [sep], when it has one. *)
Fixpoint rsplit_last (sep : ascii) (s : string) : option (string * string) :=
  match s with
  | EmptyString => None
  | String c s' =>
      match rsplit_last sep s' with
      | Some (a, b) => Some (String c a, b)
      | None => if Ascii.eqb c sep then Some (EmptyString, s') else None
      end
  end.

(** [s.rsplit(sep, 1)] *)
Definition rsplit1 (sep : ascii) (s : string) : list string :=
  match rsplit_last sep s with
  | Some (a, b) => [a; b]
  | None => [s]
  end.

(** [s.startswith('/')] *)
Definition starts_with_slash (s : string) : bool :=
  match s with
  | String c _ => Ascii.eqb c "/"
  | EmptyString => false
  end.

(** [os.path.join(a, b)] on POSIX. *)
Definition os_path_join (a b : string) : string :=
  if starts_with_slash b then b
  else match a, rsplit_last "/" a with
       | EmptyString, _ => b
       | _, Some (_, EmptyString) => a ++ b
       | _, _ => a ++ "/" ++ b
       end.

(** [os.path.basename(p)] on POSIX: what follows the last slash. *)
Definition os_path_basename (p : string) : string :=
  match rsplit_last "/" p with
  | Some (_, b) => b
  | None => p
  end.

(** Decimal numeral of a natural number, as [str(n)] prints it. *)
Definition of_N (n : N) : string :=
  NilZero.string_of_uint (N.to_uint n).

End PyStr.

(** ** Python floats: IEEE binary64 *)

Module PyFloat.

Definition prec : Z := 53.
Definition emax : Z := 1024.

Definition float := spec_float.

(** [float(z)], the conversion Python applies to an [int] operand. *)
Definition of_int (z : Z) : float := binary_normalize prec emax z 0 false.

Definition sub (x y : float) : float := SFsub prec emax x y.
Definition mul (x y : float) : float := SFmul prec emax x y.
Definition add (x y : float) : float := SFadd prec emax x y.
Definition gt (x y : float) : bool := SFltb y x.
Definition le (x y : float) : bool := SFleb x y.
Definition eqb (x y : float) : bool := SFeqb x y.

(** The literal [0.5]. *)
Definition half : float := S754_finite false 4503599627370496 (-53).

(** The exact rational value of a finite float. *)
Definition to_Q (x : float) : Q :=
  match x with
  | S754_finite s m e =>
      let v := if s then Z.neg m else Z.pos m in
      if 0 <=? e then inject_Z (v * 2 ^ e)
      else Qmake v (Z.to_pos (2 ^ (- e)))
  | _ => 0%Q
  end.

(** Nearest integer to [n / d] ([d > 0]), ties to even. *)
Definition div_half_even (n d : Z) : Z :=
  let q := n / d in
  let r := n mod d in
  match 2 * r ?= d with
  | Lt => q
  | Gt => q + 1
  | Eq => if Z.even q then q else q + 1
  end.

Definition two_digits (n : Z) : string :=
  (PyStr.of_N (Z.to_N (n / 10)) ++ PyStr.of_N (Z.to_N (n mod 10)))%string.

(** [f"{x:.2f}"]: the exact value rounded to two decimals, ties to even. *)
Definition format_2f (x : float) : string :=
  match x with
  | S754_nan => "nan"
  | S754_infinity s => if s then "-inf" else "inf"
  | S754_zero s => if s then "-0.00" else "0.00"
  | S754_finite s m e =>
      let hundredths :=
        if 0 <=? e then Z.pos m * 2 ^ e * 100
        else div_half_even (Z.pos m * 100) (2 ^ (- e)) in
      ((if s then "-" else "")
         ++ PyStr.of_N (Z.to_N (hundredths / 100)) ++ "."
         ++ two_digits (hundredths mod 100))%string
  end.

End PyFloat.

(** ** Values, dictionaries and responses *)

(** What [jsonify] is given: Python values that serialise to JSON. *)
#[warnings="-register-all"]
Inductive json : Type :=
| JNone
| JBool (b : bool)
| JInt (z : Z)
| JFloat (x : PyFloat.float)
| JStr (s : string)
| JList (l : list json)
| JDict (d : list (string * json)).

(** A [dict] with string keys, in insertion order. *)
Definition dict := list (string * json).

(** [d.get(k)] *)
Fixpoint dict_get (d : dict) (k : string) : option json :=
  match d with
  | [] => None
  | (k', v) :: d' => if String.eqb k k' then Some v else dict_get d' k
  end.

(** [d[k] = v]: overwrite in place, or append a new key. *)
Fixpoint dict_set (d : dict) (k : string) (v : json) : dict :=
  match d with
  | [] => [(k, v)]
  | (k', v') :: d' =>
      if String.eqb k k' then (k', v) :: d' else (k', v') :: dict_set d' k v
  end.

(** Python truth value of a JSON-like value. *)
Definition truthy (v : json) : bool :=
  match v with
  | JNone => false
  | JBool b => b
  | JInt z => negb (z =? 0)
  | JFloat x =>
      match x with S754_zero _ => false | _ => true end
  | JStr s => negb (String.eqb s "")
  | JList l => match l with [] => false | _ => true end
  | JDict d => match d with [] => false | _ => true end
  end.

(** Truth value of [d.get(k)]; a missing key gives [None]. *)
Definition get_truthy (d : dict) (k : string) : bool :=
  match dict_get d k with
  | Some v => truthy v
  | None => false
  end.

(** The pair a Flask view returns: the value handed to [jsonify], with its
    keys in the order the source writes them, and a status code. *)
Record response : Type := mkResponse { body : json; status : Z }.

(** [jsonify({'error': msg}), code] *)
Definition error_response (msg : string) (code : Z) : response :=
  mkResponse (JDict [("error", JStr msg)]) code.

(** ** Exceptions, events and the world *)

(** An instance of a subclass of [Exception]: class name and [str(e)]. *)
Record exn : Type := mkExn { exn_class : string; exn_text : string }.

Definition IndexError : exn := mkExn "IndexError" "list index out of range".
Definition NameError (n : string) : exn :=
  mkExn "NameError" ("name '" ++ n ++ "' is not defined").
Definition KeyError (k : string) : exn := mkExn "KeyError" ("'" ++ k ++ "'").

(** [type(v).__name__] *)
Definition type_name (v : json) : string :=
  match v with
  | JNone => "NoneType"
  | JBool _ => "bool"
  | JInt _ => "int"
  | JFloat _ => "float"
  | JStr _ => "str"
  | JList _ => "list"
  | JDict _ => "dict"
  end.

(** What [os.path.basename(v)] raises for a [v] that is not a path. *)
Definition TypeError (v : json) : exn :=
  mkExn "TypeError"
    ("expected str, bytes or os.PathLike object, not " ++ type_name v).

(** An instance of [BaseException] that is not an [Exception]
    ([SystemExit], [KeyboardInterrupt], [GeneratorExit]): an
    [except Exception] clause lets it through.  Here it can come out of
    the engine methods, the one code [app.py] calls without knowing it; a
    signal delivered at some other point of the handler is not
    modelled. *)
Record base_exn : Type := mkBaseExn { base_class : string; base_text : string }.

(** A computation returns a value, raises an [Exception], or is left by a
    [BaseException] that is none. *)
Inductive result (A : Type) : Type :=
| Ok (a : A)
| Raise (e : exn)
| Abort (b : base_exn).
Arguments Ok {A} a.
Arguments Raise {A} e.
Arguments Abort {A} b.

(** The three methods [app.py] calls on the detector. *)
Inductive engine_op : Type :=
| PredictImageDeepfake
| AnalyzeDocumentForgery
| AnalyzePdfForgery.

(** Identity of a Python object on the heap. *)
Definition obj_id := nat.

(** What the process does, as the properties need it: folders made,
    detector objects constructed, uploads stored, engine methods called
    (and, when a call ends in an exception, which one and of which kind),
    lines printed. *)
Inductive event : Type :=
| EvMakedirs (path : string)
| EvConstruct (self : obj_id)
| EvSave (path : string)
| EvEngine (self : obj_id) (op : engine_op) (path out_dir : string)
| EvEngineRaised (op : engine_op) (e : exn)
| EvEngineAborted (op : engine_op) (b : base_exn)
| EvPrint (text : string).

(** Files by path; the newest write comes first. *)
Definition filesystem := list (string * string).

Record world : Type := mkWorld {
  fs : filesystem;
  (** the module global [detector]; unbound until the module body has run *)
  detector : option obj_id;
  (** how many detector objects exist *)
  heap_next : obj_id;
  trace : list event
}.

Definition initial_world : world := mkWorld [] None 0%nat [].

Definition fs_write (w : world) (path data : string) : world :=
  mkWorld ((path, data) :: fs w) (detector w) (heap_next w) (trace w).

Definition log (w : world) (e : event) : world :=
  mkWorld (fs w) (detector w) (heap_next w) (trace w ++ [e]).

(** ** The monad of the handler: state and exceptions *)

Definition M (A : Type) : Type := world -> result A * world.

Definition ret {A} (a : A) : M A := fun w => (Ok a, w).

Definition raise {A} (e : exn) : M A := fun w => (Raise e, w).

Definition bind {A B} (m : M A) (k : A -> M B) : M B :=
  fun w =>
    match m w with
    | (Ok a, w') => k a w'
    | (Raise e, w') => (Raise e, w')
    | (Abort b, w') => (Abort b, w')
    end.

(** [try: m  except Exception as e: h e] *)
Definition try_except {A} (m : M A) (h : exn -> M A) : M A :=
  fun w =>
    match m w with
    | (Ok a, w') => (Ok a, w')
    | (Raise e, w') => h e w'
    | (Abort b, w') => (Abort b, w')
    end.

Definition emit (e : event) : M unit := fun w => (Ok tt, log w e).

Declare Scope py_scope.
Delimit Scope py_scope with py.
Notation "x <- m ;; k" := (bind m (fun x => k))
  (at level 61, m at next level, right associativity) : py_scope.
Notation "m ;;; k" := (bind m (fun _ => k))
  (at level 61, right associativity) : py_scope.

(** [l[i]] on a list. *)
Definition index {A} (l : list A) (i : nat) : M A :=
  match nth_error l i with
  | Some a => ret a
  | None => raise IndexError
  end.

(** ** The request and the external collaborators *)

(** [request.files['file']]: a werkzeug [FileStorage]. *)
Record FileStorage : Type := mkFile { filename : string; stream : string }.

(** The part of a Flask request [analyze] reads. *)
Record request : Type := mkRequest {
  (** [request.files.get('file')] *)
  files_file : option FileStorage;
  (** [request.form.get('analysis_type')] *)
  form_analysis_type : option string
}.

(** What [app.py] relies on from [model.HybridDeepFakeDetector].  The class
    is imported from [model], whose body is not part of this development,
    so its behaviour is a parameter with the shape the call sites give it:
    each method takes the upload path and the output folder, reads and
    writes files, and either raises or returns a probability with a
    highlight path, a score with a verdict and an analyzed path, or a list
    of per-page dicts. *)
Record DetectorClass : Type := mkDetectorClass {
  (** [__init__]: returns, or raises and aborts the import of the module *)
  init : filesystem -> option exn;
  predict_image_deepfake :
    filesystem -> string -> string ->
    result (PyFloat.float * option string) * filesystem;
  analyze_document_forgery :
    filesystem -> string -> string ->
    result (PyFloat.float * string * option string) * filesystem;
  analyze_pdf_forgery :
    filesystem -> string -> string -> result (list dict) * filesystem
}.

(** ** Configuration *)

Definition UPLOAD_FOLDER : string := "static/uploads".
Definition PROCESSED_FOLDER : string := "static/processed".
Definition ALLOWED_EXTENSIONS : list string := ["png"; "jpg"; "jpeg"; "pdf"].

(** [x in ALLOWED_EXTENSIONS] *)
Definition in_set (x : string) (l : list string) : bool :=
  existsb (String.eqb x) l.

(** [allowed_file(filename)] *)
Definition allowed_file (filename : string) : bool :=
  PyStr.contains "." filename &&
  match nth_error (PyStr.rsplit1 "." filename) 1 with
  | Some ext => in_set (PyStr.lower ext) ALLOWED_EXTENSIONS
  | None => false
  end.

(** The messages of [analyze]. *)
Definition msg_no_file_part : string := "No file part in the request.".
Definition msg_no_file_selected : string := "No file selected.".
Definition msg_no_analysis_type : string := "No analysis type selected.".
Definition msg_pdf_not_image : string :=
  "DeepFake analysis is for images (JPG, PNG), not PDFs.".
Definition msg_invalid_analysis_type : string :=
  "Invalid analysis type specified.".
Definition msg_internal_error : string :=
  "An internal error occurred during processing. Please try again.".
Definition msg_invalid_file_type : string := "Invalid file type.".

Definition internal_error_response : response :=
  error_response msg_internal_error 500.

(** [x if x else None] for a string that may be [None] or empty. *)
Definition if_truthy (p : option string) : option string :=
  match p with
  | Some s => if String.eqb s "" then None else Some s
  | None => None
  end.


(** ** The application *)

Section App.

(** [werkzeug.utils.secure_filename] *)
Variable secure_filename : string -> string.
(** What the operating system answers when [file.save] writes [data] at
    [path] over the files [files]: [None] when the write goes through, or
    the exception it raises (an [OSError] for a name that is too long, a
    full disk, a missing folder, ...) with the files it leaves. *)
Variable save_error :
  filesystem -> string -> string -> option (exn * filesystem).
(** [flask.url_for(endpoint, filename=...)] *)
Variable url_for : string -> string -> string.
(** The behaviour of the class imported from [model]. *)
Variable HybridDeepFakeDetector : DetectorClass.

Local Open Scope py_scope.

(** Reading the module global [detector]. *)
Definition global_detector : M obj_id :=
  fun w =>
    match detector w with
    | Some d => (Ok d, w)
    | None => (Raise (NameError "detector"), w)
    end.

(** What the trace keeps of the way an engine call ended. *)
Definition raised_event {A} (op : engine_op) (r : result A) : list event :=
  match r with
  | Ok _ => []
  | Raise e => [EvEngineRaised op e]
  | Abort b => [EvEngineAborted op b]
  end.

(** [detector.method(path, out_dir)] *)
Definition call_engine {A} (op : engine_op)
    (method : filesystem -> string -> string -> result A * filesystem)
    (path out_dir : string) : M A :=
  self <- global_detector ;;
  emit (EvEngine self op path out_dir) ;;;
  (fun w =>
     let (r, fs') := method (fs w) path out_dir in
     (r, mkWorld fs' (detector w) (heap_next w)
           (trace w ++ raised_event op r))).

(** [file.save(path)]: the upload is written, or the write raises. *)
Definition save (file : FileStorage) (path : string) : M unit :=
  fun w =>
    match save_error (fs w) path (stream file) with
    | Some (e, files) =>
        (Raise e, mkWorld files (detector w) (heap_next w) (trace w))
    | None => (Ok tt, log (fs_write w path (stream file)) (EvSave path))
    end.

(** [print(text)], on a standard output that takes the text. *)
Definition print (text : string) : M unit := emit (EvPrint text).

(** [os.path.basename(page[k])] *)
Definition basename_of (page : dict) (k : string) : result string :=
  match dict_get page k with
  | Some (JStr s) => Ok (PyStr.os_path_basename s)
  | Some v => Raise (TypeError v)
  | None => Raise (KeyError k)
  end.

(** One statement of the URL loop,
    [if page.get(path_key): page[url_key] = url_for('static', ...)].
    The right-hand side is evaluated first: when it raises, the dict has
    not been assigned to. *)
Definition set_url (page : dict) (path_key url_key : string) : result dict :=
  if get_truthy page path_key then
    match basename_of page path_key with
    | Ok b =>
        Ok (dict_set page url_key (JStr (url_for "static" ("processed/" ++ b))))
    | Raise e => Raise e
    | Abort b => Abort b
    end
  else Ok page.

(** One iteration of the loop that turns local paths into URLs.  The dict
    is the engine's own object and is updated in place: the second
    component is the dict as the iteration leaves it, which after an
    exception in the second statement already carries the URL the first
    one assigned. *)
Definition add_urls (page : dict) : result unit * dict :=
  match set_url page "original_page_image_path" "original_image_url" with
  | Ok page1 =>
      match set_url page1 "analyzed_image_path" "analyzed_image_url" with
      | Ok page2 => (Ok tt, page2)
      | Raise e => (Raise e, page1)
      | Abort b => (Abort b, page1)
      end
  | Raise e => (Raise e, page)
  | Abort b => (Abort b, page)
  end.

(** [for result in pdf_results: ...]: the list as the loop leaves it, the
    iterations after an exception not having run. *)
Fixpoint url_loop (pdf_results : list dict) : result unit * list dict :=
  match pdf_results with
  | [] => (Ok tt, [])
  | page :: rest =>
      match add_urls page with
      | (Ok _, page') =>
          let (r, rest') := url_loop rest in (r, page' :: rest')
      | (Raise e, page') => (Raise e, page' :: rest)
      | (Abort b, page') => (Abort b, page' :: rest)
      end
  end.

(** The scores and the verdict of the image branch. *)
Definition real_score (probability : PyFloat.float) : PyFloat.float :=
  PyFloat.mul (PyFloat.sub (PyFloat.of_int 1) probability) (PyFloat.of_int 100).

Definition fake_score (probability : PyFloat.float) : PyFloat.float :=
  PyFloat.mul probability (PyFloat.of_int 100).

Definition image_verdict (probability : PyFloat.float) : string :=
  if PyFloat.gt probability PyFloat.half
  then "DeepFake Detected" else "Likely Authentic".

Definition image_explanation (probability : PyFloat.float) : string :=
  if PyFloat.gt probability PyFloat.half
  then "The model detected subtle artifacts consistent with AI-generated images."
  else "The model did not find significant evidence of AI manipulation.".

Definition document_explanation (verdict : string) : string :=
  if String.eqb verdict "Suspicious Forgery"
  then "ELA detected inconsistencies in JPEG compression levels, suggesting a potential digital modification."
  else "The document's compression levels appear consistent, indicating it is likely unmodified.".

(** [url_for('static', filename=f'processed/{basename(p)}') if p else None] *)
Definition analyzed_image_url (p : option string) : json :=
  match if_truthy p with
  | Some s => JStr (url_for "static" ("processed/" ++ PyStr.os_path_basename s))
  | None => JNone
  end.

(** The branch for PDF files, once the analysis type is known not to be
    ['image']. *)
Definition pdf_branch (filename upload_path : string) : M response :=
  pdf_results <- call_engine AnalyzePdfForgery
                   (analyze_pdf_forgery HybridDeepFakeDetector)
                   upload_path PROCESSED_FOLDER ;;
  match url_loop pdf_results with
  | (Ok _, results) =>
      ret (mkResponse
             (JDict [("analysis_type", JStr "pdf");
                     ("results", JList (map JDict results));
                     ("original_filename", JStr filename)])
             200)
  | (Raise e, _) => raise e
  | (Abort b, _) => fun w => (Abort b, w)
  end.

Definition image_branch (filename upload_path : string) : M response :=
  r <- call_engine PredictImageDeepfake
         (predict_image_deepfake HybridDeepFakeDetector)
         upload_path PROCESSED_FOLDER ;;
  let '(probability, highlighted_path) := r in
  ret (mkResponse
         (JDict [("verdict", JStr (image_verdict probability));
                 ("real_score", JStr (PyFloat.format_2f (real_score probability)));
                 ("fake_score", JStr (PyFloat.format_2f (fake_score probability)));
                 ("explanation", JStr (image_explanation probability));
                 ("analysis_type", JStr "image");
                 ("original_image_url",
                   JStr (url_for "static" ("uploads/" ++ filename)));
                 ("analyzed_image_url", analyzed_image_url highlighted_path)])
         200).

Definition document_branch (filename upload_path : string) : M response :=
  r <- call_engine AnalyzeDocumentForgery
         (analyze_document_forgery HybridDeepFakeDetector)
         upload_path PROCESSED_FOLDER ;;
  let '(forgery_score, verdict, analyzed_path) := r in
  ret (mkResponse
         (JDict [("verdict", JStr verdict);
                 ("forgery_score", JStr (PyFloat.format_2f forgery_score));
                 ("explanation", JStr (document_explanation verdict));
                 ("analysis_type", JStr "document");
                 ("original_image_url",
                   JStr (url_for "static" ("uploads/" ++ filename)));
                 ("analyzed_image_url", analyzed_image_url analyzed_path)])
         200).

(** The body of the [try] block. *)
Definition dispatch (file_extension analysis_type filename upload_path : string)
  : M response :=
  if String.eqb file_extension "pdf" then
    if String.eqb analysis_type "image" then
      ret (error_response msg_pdf_not_image 400)
    else pdf_branch filename upload_path
  else if String.eqb analysis_type "image" then
    image_branch filename upload_path
  else if String.eqb analysis_type "document" then
    document_branch filename upload_path
  else ret (error_response msg_invalid_analysis_type 400).

(** The [except Exception as e] clause. *)
Definition on_exception (e : exn) : M response :=
  print ("An error occurred during analysis: " ++ exn_text e) ;;;
  ret internal_error_response.

(** [filename.rsplit('.', 1)[1].lower()] *)
Definition extension_of (filename : string) : M string :=
  ext <- index (PyStr.rsplit1 "." filename) 1 ;;
  ret (PyStr.lower ext).

(** [os.makedirs(path, exist_ok=True)] *)
Definition makedirs (path : string) : M unit := emit (EvMakedirs path).

(** [HybridDeepFakeDetector()]: a fresh object, then its [__init__]. *)
Definition construct : M obj_id :=
  fun w =>
    let self := heap_next w in
    let w' := mkWorld (fs w) (detector w) (S self)
                (trace w ++ [EvConstruct self]) in
    match init HybridDeepFakeDetector (fs w) with
    | None => (Ok self, w')
    | Some e => (Raise e, w')
    end.

(** [detector = d] at module level. *)
Definition bind_detector (d : obj_id) : M unit :=
  fun w => (Ok tt, mkWorld (fs w) (Some d) (heap_next w) (trace w)).

(** The statements the module runs when it is imported. *)
Definition module_body : M unit :=
  makedirs UPLOAD_FOLDER ;;;
  makedirs PROCESSED_FOLDER ;;;
  d <- construct ;;
  bind_detector d.

(** The view function of [/analyze]. *)
Definition analyze (req : request) : M response :=
  match files_file req with
  | None => ret (error_response msg_no_file_part 400)
  | Some file =>
      let analysis_type := form_analysis_type req in
      if String.eqb (filename file) "" then
        ret (error_response msg_no_file_selected 400)
      else
        match if_truthy analysis_type with
        | None => ret (error_response msg_no_analysis_type 400)
        | Some analysis_type =>
            if negb (String.eqb (filename file) "")
               && allowed_file (filename file)
            then
              let filename := secure_filename (filename file) in
              let upload_path := PyStr.os_path_join UPLOAD_FOLDER filename in
              save file upload_path ;;;
              file_extension <- extension_of filename ;;
              try_except
                (dispatch file_extension analysis_type filename upload_path)
                on_exception
            else ret (error_response msg_invalid_file_type 400)
        end
  end.

End App.

(** ** The running process *)

(** The two routes of the application. *)
Inductive http_request : Type :=
| GetIndex
| PostAnalyze (req : request).

(** What a route leaves for Flask to send: a JSON response, a rendered
    template, an exception no handler caught (Flask answers it with its
    own 500 page), or a [BaseException] on its way out of the request. *)
Inductive outcome : Type :=
| Responded (r : response)
| Rendered (template : string)
| Unhandled (e : exn)
| Aborted (b : base_exn).

Section Process.

Variable secure_filename : string -> string.
Variable save_error :
  filesystem -> string -> string -> option (exn * filesystem).
Variable url_for : string -> string -> string.
Variable HybridDeepFakeDetector : DetectorClass.

(** One request through its route. *)
Definition handle (r : http_request) (w : world) : outcome * world :=
  match r with
  | GetIndex => (Rendered "index.html", w)
  | PostAnalyze req =>
      match analyze secure_filename save_error url_for
              HybridDeepFakeDetector req w with
      | (Ok resp, w') => (Responded resp, w')
      | (Raise e, w') => (Unhandled e, w')
      | (Abort b, w') => (Aborted b, w')
      end
  end.

(** The requests of a process, one after the other. *)
Fixpoint serve (rs : list http_request) (w : world) : list outcome * world :=
  match rs with
  | [] => ([], w)
  | r :: rs' =>
      let (o, w1) := handle r w in
      let (os, w2) := serve rs' w1 in
      (o :: os, w2)
  end.

(** Import the module, then serve; a failed import serves nothing. *)
Definition run (rs : list http_request) : result (list outcome) * world :=
  match module_body HybridDeepFakeDetector initial_world with
  | (Ok _, w) => let (os, w') := serve rs w in (Ok os, w')
  | (Raise e, w) => (Raise e, w)
  | (Abort b, w) => (Abort b, w)
  end.

End Process.

(** ** Concrete collaborators *)

(** [werkzeug.utils.secure_filename] on POSIX, for ASCII file names only:
    slashes become spaces, runs of whitespace become one underscore,
    everything outside [A-Za-z0-9_.-] is removed and leading and trailing
    dots and underscores are stripped.  On an ASCII name the first two
    steps of the library function, NFKD normalisation and encoding to
    ASCII, change nothing.  They are not modelled: on a name with other
    characters this function only drops them, which is not what the
    library does to a character that decomposes into ASCII letters, so it
    is applied to ASCII names alone. *)
Module Werkzeug.

Definition is_ascii (c : ascii) : bool := N.ltb (PyStr.code c) 128.

Definition is_space (c : ascii) : bool :=
  let n := PyStr.code c in
  ((N.leb 9 n && N.leb n 13) || (N.leb 28 n && N.leb n 32))%bool.

Definition is_safe (c : ascii) : bool :=
  (PyStr.is_upper c || PyStr.is_lower c || PyStr.is_digit c
   || Ascii.eqb c "_" || Ascii.eqb c "." || Ascii.eqb c "-")%bool.

Definition is_dot_or_underscore (c : ascii) : bool :=
  (Ascii.eqb c "." || Ascii.eqb c "_")%bool.

(** [s.split()]: the maximal runs of non-space characters; [cur] is the
    run being read, reversed. *)
Fixpoint split_ws (l cur : list ascii) : list (list ascii) :=
  match l with
  | [] => match cur with [] => [] | _ => [rev cur] end
  | c :: l' =>
      if is_space c then
        match cur with
        | [] => split_ws l' []
        | _ => rev cur :: split_ws l' []
        end
      else split_ws l' (c :: cur)
  end.

(** ["_".join(parts)] *)
Fixpoint join_underscore (parts : list (list ascii)) : list ascii :=
  match parts with
  | [] => []
  | [p] => p
  | p :: ps => p ++ "_"%char :: join_underscore ps
  end.

Fixpoint lstrip (l : list ascii) : list ascii :=
  match l with
  | c :: l' => if is_dot_or_underscore c then lstrip l' else l
  | [] => []
  end.

(** [s.strip("._")] *)
Definition strip (l : list ascii) : list ascii :=
  rev (lstrip (rev (lstrip l))).

Definition secure_filename (name : string) : string :=
  let ascii_only := filter is_ascii (PyStr.chars name) in
  let no_sep :=
    map (fun c => if Ascii.eqb c "/" then " "%char else c) ascii_only in
  let joined := join_underscore (split_ws no_sep []) in
  PyStr.of_chars (strip (filter is_safe joined)).

End Werkzeug.

(** [flask.url_for] for the static endpoint and names that need no
    quoting. *)
Definition flask_url_for (endpoint filename : string) : string :=
  "/" ++ endpoint ++ "/" ++ filename.

(** Writing a file on a POSIX disk with room left: the only failure is a
    last path component longer than [NAME_MAX] = 255 bytes, for which
    [open] raises [OSError] and creates nothing. *)
Definition posix_save_error (files : filesystem) (path data : string)
  : option (exn * filesystem) :=
  if (255 <? String.length (PyStr.os_path_basename path))%nat then
    Some (mkExn "OSError"
            ("[Errno 36] File name too long: '" ++ path ++ "'"),
          files)
  else None.

(** ** The engine behind the detector

    [model.py], which defines [HybridDeepFakeDetector], is not among the
    sources; what follows is written from the specification of its three
    operations. *)

Module EngineSpec.

(** Modelled from the spec: the failure kinds of the missing engine. *)
Inductive engine_error : Type :=
| InvalidImage
| ModelInferenceError
| ArtifactIOError
| DocumentFailure.

(** Modelled from the spec: what an operation of the missing engine
    returns, a value or a failure kind. *)
Inductive engine_result (A : Type) : Type :=
| Done (a : A)
| Failed (e : engine_error).
Arguments Done {A} a.
Arguments Failed {A} e.

(** Modelled from the spec: the verdicts of the missing forgery engine. *)
Inductive forgery_verdict : Type :=
| SuspiciousForgery
| LikelyAuthentic.

(** Modelled from the spec: a decoded raster of the missing engine, as its
    pixel intensities in scan order. *)
Definition image := list Z.

Section ELA.

(** The named constants of the analysis: recompression quality,
    amplification factor, per-pixel error threshold, and the one forgery
    threshold [T]. *)
Variable quality : Z.
Variable scale : Z.
Variable pixel_threshold : Z.
Variable T : Q.
(** The image decoder and the lossy re-encoder. *)
Variable decode : string -> option image.
Variable recompress : Z -> image -> image.

(** Modelled from the spec: the error map of the missing ELA engine, the
    per-pixel absolute difference with the recompressed copy, amplified. *)
Definition error_map (img : image) : list Z :=
  map (fun ab => scale * Z.abs (fst ab - snd ab))
      (combine img (recompress quality img)).

(** Modelled from the spec: how many pixels of an error map exceed the
    error threshold (the count behind the missing engine's aggregate). *)
Definition exceeding (errs : list Z) : nat :=
  List.length (filter (fun e => pixel_threshold <? e) errs).

(** Modelled from the spec: the aggregate of the missing ELA engine, taken
    as the proportion of pixels exceeding the error threshold, scaled to
    [0,100]. *)
Definition ela_score (img : image) : Q :=
  Qmake (100 * Z.of_nat (exceeding (error_map img)))
        (Pos.of_nat (List.length img)).

(** Modelled from the spec: the verdict of the missing ELA engine,
    [SuspiciousForgery] iff the score exceeds [T]. *)
Definition verdict_of (score : Q) : forgery_verdict :=
  if Qle_bool score T then LikelyAuthentic else SuspiciousForgery.

(** Modelled from the spec: [analyzeDocumentForgery], whose body is
    missing.  Decode, recompress at the fixed quality, amplify the
    difference, aggregate to a score in [0,100], compare with [T], and
    hand back the error map as the analyzed artifact.  An input that
    does not decode, or decodes to no pixel at all, is an
    [InvalidImage]. *)
Definition analyzeDocumentForgery (data : string)
  : engine_result (Q * forgery_verdict * list Z) :=
  match decode data with
  | None => Failed InvalidImage
  | Some [] => Failed InvalidImage
  | Some img =>
      let score := ela_score img in
      Done (score, verdict_of score, error_map img)
  end.

(** Modelled from the spec: a valid document for the missing engine, one
    that decodes to at least one pixel. *)
Definition valid_document (data : string) : Prop :=
  exists px img, decode data = Some (px :: img).

End ELA.

Section PDF.

Variable page : Type.
(** Opening a PDF gives its pages in physical order. *)
Variable open_pdf : string -> option (list page).
(** Rendering one page at the fixed resolution. *)
Variable rasterize : page -> engine_result image.
(** The ELA engine on a rendered page. *)
Variable ela : image -> engine_result (Q * forgery_verdict * list Z).

(** Modelled from the spec: what the missing orchestrator records for a
    page, its analysis or the marker of a page that could not be rendered
    or analysed. *)
Inductive page_outcome : Type :=
| Analyzed (original : image) (score : Q) (verdict : forgery_verdict)
           (analyzed : list Z)
| PageFailed (e : engine_error).

(** Modelled from the spec: the per-page record of the missing
    orchestrator. *)
Record PDFPageResult : Type := mkPage {
  pageNumber : Z;
  outcome : page_outcome
}.

(** Modelled from the spec: one page through the missing orchestrator,
    rendered and then handed to the ELA engine. *)
Definition analyze_page (p : page) : page_outcome :=
  match rasterize p with
  | Failed e => PageFailed e
  | Done img =>
      match ela img with
      | Failed e => PageFailed e
      | Done (score, verdict, analyzed) =>
          Analyzed img score verdict analyzed
      end
  end.

(** Modelled from the spec: the page loop of the missing orchestrator,
    pages [i], [i+1], ... in order. *)
Fixpoint analyze_pages (i : Z) (pages : list page) : list PDFPageResult :=
  match pages with
  | [] => []
  | p :: ps => mkPage i (analyze_page p) :: analyze_pages (i + 1) ps
  end.

(** Modelled from the spec: whether a page carries the error marker. *)
Definition page_failed (r : PDFPageResult) : bool :=
  match outcome r with
  | PageFailed _ => true
  | Analyzed _ _ _ _ => false
  end.

(** Modelled from the spec: [analyzePdfForgery], whose body is missing.
    Every page is analysed on its own and numbered from 1; a page that
    fails keeps its place with an error marker; only a document all of
    whose pages fail is a failure, and a document without pages is an
    empty sequence. *)
Definition analyzePdfForgery (data : string)
  : engine_result (list PDFPageResult) :=
  match open_pdf data with
  | None => Failed InvalidImage
  | Some pages =>
      let results := analyze_pages 1 pages in
      match results with
      | [] => Done []
      | _ => if forallb page_failed results
             then Failed DocumentFailure
             else Done results
      end
  end.

(** Modelled from the spec: a valid PDF for the missing orchestrator, with
    the pages [pages]: it opens, and when it has pages at least one of them
    can be analysed. *)
Definition valid_pdf (data : string) (pages : list page) : Prop :=
  open_pdf data = Some pages /\
  (pages = [] \/
   exists p, In p pages /\
             match analyze_page p with
             | Analyzed _ _ _ _ => True
             | PageFailed _ => False
             end).

End PDF.

End EngineSpec.

(** ** Observations on responses and traces *)

(** A field of a JSON object response. *)
Definition field (r : response) (k : string) : option json :=
  match body r with
  | JDict d => dict_get d k
  | _ => None
  end.

Definition is_engine_call (e : event) : bool :=
  match e with
  | EvEngine _ _ _ _ => true
  | _ => false
  end.

Definition is_construct (e : event) : bool :=
  match e with
  | EvConstruct _ => true
  | _ => false
  end.

(** The receiver of an engine call, when the event is one. *)
Definition receiver (e : event) : option obj_id :=
  match e with
  | EvEngine self _ _ _ => Some self
  | _ => None
  end.

(** No engine call among the events. *)
Definition engine_untouched (evs : list event) : Prop :=
  existsb is_engine_call evs = false.

(** The messages with which [analyze] turns a request down before it
    stores anything. *)
Definition validation_messages : list string :=
  [msg_no_file_part; msg_no_file_selected; msg_no_analysis_type;
   msg_invalid_file_type].

(** A request whose file name fails the allow-list, or whose analysis type
    is missing. *)
Definition fails_validation (req : request) : Prop :=
  (exists f, files_file req = Some f /\ allowed_file (filename f) = false)
  \/ if_truthy (form_analysis_type req) = None.

(** The world after [detector.method(path, out_dir)] has ended with [r]
    and left the files [files]. *)
Definition after_call {A} (w : world) (self : obj_id) (op : engine_op)
    (path out_dir : string) (r : result A) (files : filesystem) : world :=
  mkWorld files (detector w) (heap_next w)
    (trace w ++ EvEngine self op path out_dir :: raised_event op r).

(** The world after [file.save(path)]. *)
Definition after_save (w : world) (f : FileStorage) (path : string) : world :=
  log (fs_write w path (stream f)) (EvSave path).

(** What a request handler may do to the world: it neither rebinds the
    global [detector] nor creates an object, and every engine call it
    makes goes to the object the global names. *)
Definition handler_step (w w' : world) : Prop :=
  detector w' = detector w /\
  heap_next w' = heap_next w /\
  exists evs,
    trace w' = (trace w ++ evs)%list /\
    Forall (fun e => is_construct e = false /\
                     forall self, receiver e = Some self ->
                                  detector w = Some self) evs.

(** A request that passes every check of [analyze], with its file and its
    analysis type. *)
Definition accepted (req : request) (f : FileStorage) (t : string) : Prop :=
  files_file req = Some f /\
  String.eqb (filename f) "" = false /\
  if_truthy (form_analysis_type req) = Some t /\
  allowed_file (filename f) = true.

(** The events a handler added to the trace of [w] on its way to [w']. *)
Definition added (w w' : world) (evs : list event) : Prop :=
  trace w' = (trace w ++ evs)%list.

(** The method a pair of extension and analysis type leads to: PDF
    analysis for a [pdf] extension unless the type is ['image'], and
    otherwise the method the type names. *)
Definition selects (ext t : string) (op : engine_op) : Prop :=
  match op with
  | AnalyzePdfForgery =>
      PyStr.lower ext = "pdf" /\ String.eqb t "image" = false
  | PredictImageDeepfake =>
      String.eqb (PyStr.lower ext) "pdf" = false /\ t = "image"
  | AnalyzeDocumentForgery =>
      String.eqb (PyStr.lower ext) "pdf" = false /\ t = "document"
  end.

(** The ['analysis_type'] a successful response carries for each method. *)
Definition tag (op : engine_op) : string :=
  match op with
  | AnalyzePdfForgery => "pdf"
  | PredictImageDeepfake => "image"
  | AnalyzeDocumentForgery => "document"
  end.

Definition is_save (e : event) : bool :=
  match e with
  | EvSave _ => true
  | _ => false
  end.

Definition is_print (e : event) : bool :=
  match e with
  | EvPrint _ => true
  | _ => false
  end.

(** The line the [except] clause prints for [e]. *)
Definition error_line (e : exn) : string :=
  "An error occurred during analysis: " ++ exn_text e.

(** The requests of a list that pass every check of [analyze]. *)
Definition is_accepted (r : http_request) : bool :=
  match r with
  | GetIndex => false
  | PostAnalyze req =>
      match files_file req, if_truthy (form_analysis_type req) with
      | Some f, Some _ => allowed_file (filename f)
      | _, _ => false
      end
  end.

(** A path entry the URL loop cannot turn into a URL: present and truthy,
    but not a string. *)
Definition bad_path (d : dict) (k : string) (v : json) : Prop :=
  dict_get d k = Some v /\ truthy v = true /\ forall p, v <> JStr p.

(** The world after [file.save] has raised and left the files [files]. *)
Definition after_failed_save (w : world) (files : filesystem) : world :=
  mkWorld files (detector w) (heap_next w) (trace w).

(** How the call of the method [op] on the files [files] ends. *)
Definition engine_raises (D : DetectorClass) (op : engine_op)
    (files : filesystem) (path out_dir : string) (e : exn) : Prop :=
  match op with
  | PredictImageDeepfake =>
      fst (predict_image_deepfake D files path out_dir) = Raise e
  | AnalyzeDocumentForgery =>
      fst (analyze_document_forgery D files path out_dir) = Raise e
  | AnalyzePdfForgery =>
      fst (analyze_pdf_forgery D files path out_dir) = Raise e
  end.

Definition engine_aborts (D : DetectorClass) (op : engine_op)
    (files : filesystem) (path out_dir : string) (b : base_exn) : Prop :=
  match op with
  | PredictImageDeepfake =>
      fst (predict_image_deepfake D files path out_dir) = Abort b
  | AnalyzeDocumentForgery =>
      fst (analyze_document_forgery D files path out_dir) = Abort b
  | AnalyzePdfForgery =>
      fst (analyze_pdf_forgery D files path out_dir) = Abort b
  end.

(** The response of a request whose engine call returned: what the method
    [op] gave on the files [files], and the response built from it. *)
Definition success_response (url_for : string -> string -> string)
    (D : DetectorClass) (op : engine_op) (files : filesystem)
    (name up : string) (resp : response) : Prop :=
  match op with
  | AnalyzePdfForgery =>
      exists pdf_results results files',
        analyze_pdf_forgery D files up PROCESSED_FOLDER
          = (Ok pdf_results, files') /\
        url_loop url_for pdf_results = (Ok tt, results) /\
        resp = mkResponse
                 (JDict [("analysis_type", JStr "pdf");
                         ("results", JList (map JDict results));
                         ("original_filename", JStr name)])
                 200
  | PredictImageDeepfake =>
      exists p h files',
        predict_image_deepfake D files up PROCESSED_FOLDER
          = (Ok (p, h), files') /\
        resp = mkResponse
                 (JDict [("verdict", JStr (image_verdict p));
                         ("real_score",
                           JStr (PyFloat.format_2f (real_score p)));
                         ("fake_score",
                           JStr (PyFloat.format_2f (fake_score p)));
                         ("explanation", JStr (image_explanation p));
                         ("analysis_type", JStr "image");
                         ("original_image_url",
                           JStr (url_for "static" ("uploads/" ++ name)));
                         ("analyzed_image_url",
                           analyzed_image_url url_for h)])
                 200
  | AnalyzeDocumentForgery =>
      exists score verdict path files',
        analyze_document_forgery D files up PROCESSED_FOLDER
          = (Ok (score, verdict, path), files') /\
        resp = mkResponse
                 (JDict [("verdict", JStr verdict);
                         ("forgery_score",
                           JStr (PyFloat.format_2f score));
                         ("explanation",
                           JStr (document_explanation verdict));
                         ("analysis_type", JStr "document");
                         ("original_image_url",
                           JStr (url_for "static" ("uploads/" ++ name)));
                         ("analyzed_image_url",
                           analyzed_image_url url_for path)])
                 200
  end.

(** ** Sample detectors and requests *)

Module Samples.

(** A detector that always answers the same. *)
Definition steady (p : PyFloat.float) : DetectorClass :=
  mkDetectorClass
    (fun _ => None)
    (fun files _ out_dir =>
       (Ok (p, Some (out_dir ++ "/highlight.png")), files))
    (fun files _ out_dir =>
       (Ok (PyFloat.of_int 12, "Suspicious Forgery",
            Some (out_dir ++ "/ela.png")), files))
    (fun files _ out_dir =>
       (Ok [[("page_number", JInt 1);
             ("original_page_image_path", JStr (out_dir ++ "/page_1.png"));
             ("analyzed_image_path", JStr (out_dir ++ "/page_1_ela.png"));
             ("forgery_score", JFloat (PyFloat.of_int 3));
             ("verdict", JStr "Likely Authentic")]], files)).

(** A detector all of whose methods raise [e]. *)
Definition failing (e : exn) : DetectorClass :=
  mkDetectorClass
    (fun _ => None)
    (fun files _ _ => (Raise e, files))
    (fun files _ _ => (Raise e, files))
    (fun files _ _ => (Raise e, files)).

(** A detector all of whose methods end in [b]. *)
Definition aborting (b : base_exn) : DetectorClass :=
  mkDetectorClass
    (fun _ => None)
    (fun files _ _ => (Abort b, files))
    (fun files _ _ => (Abort b, files))
    (fun files _ _ => (Abort b, files)).

Definition system_exit : base_exn := mkBaseExn "SystemExit" "1".

Definition upload (name analysis_type : string) : request :=
  mkRequest (Some (mkFile name "data")) (Some analysis_type).

(** The world once the module has been imported. *)
Definition ready : world :=
  mkWorld [] (Some 0%nat) 1%nat
    [EvMakedirs UPLOAD_FOLDER; EvMakedirs PROCESSED_FOLDER; EvConstruct 0%nat].

(** 0.34 as Python reads it: [0x1.5c28f5c28f5c3p-2]. *)
Definition p034 : PyFloat.float := S754_finite false 6124895493223875 (-54).

Definition decode_error : exn := mkExn "DecodeError" "cannot identify image file".

(** A page result as the engine hands it over, with one path missing. *)
Definition page_one : dict :=
  [("page_number", JInt 1);
   ("original_page_image_path", JStr "static/processed/report_page_1.png");
   ("analyzed_image_path", JNone);
   ("forgery_score", JFloat (PyFloat.of_int 3));
   ("verdict", JStr "Likely Authentic")].

(** The same page result once the URL loop has seen it. *)
Definition page_one_with_urls : dict :=
  (page_one ++
   [("original_image_url",
     JStr "/static/processed/report_page_1.png")])%list.

(** The answers of the steady detector to a PDF and to a document. *)
Definition pdf_reply : response :=
  Eval vm_compute in
    match fst (analyze Werkzeug.secure_filename posix_save_error flask_url_for
                 (steady PyFloat.half) (upload "report.pdf" "document")
                 ready) with
    | Ok r => r
    | Raise _ => error_response "" 0
    | Abort _ => error_response "" 0
    end.

Definition document_reply : response :=
  Eval vm_compute in
    match fst (analyze Werkzeug.secure_filename posix_save_error flask_url_for
                 (steady PyFloat.half) (upload "scan.png" "document")
                 ready) with
    | Ok r => r
    | Raise _ => error_response "" 0
    | Abort _ => error_response "" 0
    end.

(** The answer to an image upload when the detector says 0.5. *)
Definition image_reply : response :=
  Eval vm_compute in
    match fst (analyze Werkzeug.secure_filename posix_save_error flask_url_for
                 (steady PyFloat.half) (upload "face.png" "image") ready) with
    | Ok r => r
    | Raise _ => error_response "" 0
    | Abort _ => error_response "" 0
    end.

End Samples.

(** * Properties *)

(** ** Validation *)

Section Validation.

Variable secure_filename : string -> string.
Variable save_error :
  filesystem -> string -> string -> option (exn * filesystem).
Variable url_for : string -> string -> string.
Variable D : DetectorClass.

(** Every request is turned down by a check or passes them all. *)
Lemma request_cases (req : request) :
  (files_file req = None \/ fails_validation req) \/
  exists f t, accepted req f t.
Proof.
  unfold fails_validation, accepted.
  destruct (files_file req) as [f|] eqn:Hf; [|auto].
  destruct (if_truthy (form_analysis_type req)) as [t|] eqn:Ht; [|auto].
  destruct (allowed_file (filename f)) eqn:Hok.
  - right. exists f, t. repeat split; trivial.
    destruct (filename f); [discriminate Hok | reflexivity].
  - left. right. left. exists f. auto.
Qed.

(** What [analyze] does with a request that passes every check: it writes
    the upload under its sanitised name, which may raise; then it takes
    the extension of that name, which may raise too; and only then does it
    dispatch inside the [try]. *)
Lemma analyze_accepted (req : request) (f : FileStorage) (t : string)
    (w : world) :
  accepted req f t ->
  let name := secure_filename (filename f) in
  let upload_path := PyStr.os_path_join UPLOAD_FOLDER name in
  analyze secure_filename save_error url_for D req w =
    match save_error (fs w) upload_path (stream f) with
    | Some (e, files) => (Raise e, after_failed_save w files)
    | None =>
        match nth_error (PyStr.rsplit1 "." name) 1 with
        | None => (Raise IndexError, after_save w f upload_path)
        | Some ext =>
            try_except
              (dispatch url_for D (PyStr.lower ext) t name upload_path)
              on_exception (after_save w f upload_path)
        end
    end.
Proof.
  intros (Hf & Hne & Ht & Hok). cbn zeta.
  unfold analyze. rewrite Hf, Hne, Ht, Hok. cbn [negb andb].
  unfold bind at 1. unfold save, after_failed_save.
  destruct (save_error _ _ _) as [[e files]|]; [reflexivity|].
  unfold bind, extension_of, index, bind, after_save.
  destruct (nth_error _ 1); reflexivity.
Qed.

(** A request without a file part, or one that fails validation, gets one
    of the validation messages with status 400, and the world is left as
    it was. *)
Lemma analyze_rejected (req : request) (w : world) :
  files_file req = None \/ fails_validation req ->
  exists msg,
    In msg validation_messages /\
    analyze secure_filename save_error url_for D req w =
      (Ok (error_response msg 400), w).
Proof.
  intros Hbad. unfold analyze, validation_messages.
  destruct (files_file req) as [f|] eqn:Hf.
  2:{ exists msg_no_file_part. simpl. auto. }
  destruct (String.eqb (filename f) "") eqn:Hne.
  { exists msg_no_file_selected. simpl. auto. }
  destruct (if_truthy (form_analysis_type req)) as [t|] eqn:Ht.
  2:{ exists msg_no_analysis_type. simpl. auto. }
  destruct Hbad as [Hbad | [(f' & Hf' & Hbad) | Hbad]]; try congruence.
  assert (f' = f) by congruence. subst f'. rewrite Hbad. cbn [negb andb].
  exists msg_invalid_file_type. simpl. auto 6.
Qed.

(** No request is both turned down by a check and accepted. *)
Lemma accepted_not_rejected (req : request) (f : FileStorage) (t : string) :
  accepted req f t -> ~ (files_file req = None \/ fails_validation req).
Proof.
  intros (Hf & _ & Ht & Hok) [Hnone | [(f' & Hf' & Hbad) | Hbad]];
    congruence.
Qed.

(** A request is accepted with one file and one analysis type only. *)
Lemma accepted_unique (req : request) (f f' : FileStorage) (t t' : string) :
  accepted req f t -> accepted req f' t' -> f' = f /\ t' = t.
Proof.
  intros (Hf & _ & Ht & _) (Hf' & _ & Ht' & _). split; congruence.
Qed.

End Validation.

(** ** The URL loop never ends in a [BaseException] *)

Section LoopEnds.

Variable url_for : string -> string -> string.

Lemma set_url_not_abort (d : dict) (pk uk : string) (b : base_exn) :
  set_url url_for d pk uk <> Abort b.
Proof.
  unfold set_url, basename_of.
  destruct (get_truthy d pk); [|discriminate].
  destruct (dict_get d pk) as [[| | | |s| |]|]; discriminate.
Qed.

Lemma add_urls_not_abort (d d' : dict) (b : base_exn) :
  add_urls url_for d <> (Abort b, d').
Proof.
  unfold add_urls.
  destruct (set_url url_for d _ _) as [d1|e|b1] eqn:H1.
  - destruct (set_url url_for d1 _ _) as [d2|e|b2] eqn:H2; try discriminate.
    exfalso. exact (set_url_not_abort _ _ _ _ H2).
  - discriminate.
  - exfalso. exact (set_url_not_abort _ _ _ _ H1).
Qed.

Lemma url_loop_not_abort (ds ds' : list dict) (b : base_exn) :
  url_loop url_for ds <> (Abort b, ds').
Proof.
  revert ds'. induction ds as [|d ds IH]; intros ds'; cbn [url_loop].
  - discriminate.
  - destruct (add_urls url_for d) as [[[]|e|b1] d1] eqn:Hd.
    + destruct (url_loop url_for ds) as [[[]|e|b2] ds1] eqn:Hds;
        try discriminate.
      intros H. injection H as -> _. exact (IH _ eq_refl).
    + discriminate.
    + exfalso. exact (add_urls_not_abort _ _ _ Hd).
Qed.

End LoopEnds.

(** ** Running the branches *)

Section Branches.

Variable url_for : string -> string -> string.
Variable D : DetectorClass.

(** An engine call with the global bound: one trace entry for the call,
    one more when it ends in an exception, and the files the method
    leaves. *)
Lemma call_engine_run {A} (op : engine_op)
    (method : filesystem -> string -> string -> result A * filesystem)
    (path out_dir : string) (w : world) (self : obj_id) :
  detector w = Some self ->
  call_engine op method path out_dir w =
    (fst (method (fs w) path out_dir),
     after_call w self op path out_dir
       (fst (method (fs w) path out_dir)) (snd (method (fs w) path out_dir))).
Proof.
  intros Hd. unfold call_engine, bind, global_detector, emit, after_call.
  destruct (detector w) as [d|] eqn:E; [|discriminate].
  injection Hd as ->. cbn [log fs detector heap_next trace].
  destruct (method (fs w) path out_dir) as [r files]. cbn [fst snd].
  rewrite E, <- app_assoc. reflexivity.
Qed.

(** With no detector bound the call is a [NameError] and nothing happens. *)
Lemma call_engine_unbound {A} (op : engine_op)
    (method : filesystem -> string -> string -> result A * filesystem)
    (path out_dir : string) (w : world) :
  detector w = None ->
  call_engine op method path out_dir w = (Raise (NameError "detector"), w).
Proof.
  intros Hd. unfold call_engine, bind, global_detector. rewrite Hd. reflexivity.
Qed.

(** The PDF branch: the engine call, then the URL loop on what it gave. *)
Lemma pdf_branch_run (name up : string) (w : world) (self : obj_id) :
  detector w = Some self ->
  let call := analyze_pdf_forgery D (fs w) up PROCESSED_FOLDER in
  let w1 := after_call w self AnalyzePdfForgery up PROCESSED_FOLDER
              (fst call) (snd call) in
  pdf_branch url_for D name up w =
    match fst call with
    | Raise e => (Raise e, w1)
    | Abort b => (Abort b, w1)
    | Ok pdf_results =>
        match url_loop url_for pdf_results with
        | (Ok _, results) =>
            (Ok (mkResponse
                   (JDict [("analysis_type", JStr "pdf");
                           ("results", JList (map JDict results));
                           ("original_filename", JStr name)])
                   200), w1)
        | (Raise e, _) => (Raise e, w1)
        | (Abort b, _) => (Abort b, w1)
        end
    end.
Proof.
  intros Hd. cbn zeta. unfold pdf_branch. unfold bind at 1.
  rewrite (call_engine_run _ _ _ _ _ _ Hd).
  destruct (fst (analyze_pdf_forgery D (fs w) up PROCESSED_FOLDER))
    as [pdf_results|e|b]; try reflexivity.
  destruct (url_loop url_for pdf_results) as [[[]|e|b] results]; reflexivity.
Qed.

Lemma image_branch_run (name up : string) (w : world) (self : obj_id) :
  detector w = Some self ->
  let call := predict_image_deepfake D (fs w) up PROCESSED_FOLDER in
  let w1 := after_call w self PredictImageDeepfake up PROCESSED_FOLDER
              (fst call) (snd call) in
  image_branch url_for D name up w =
    match fst call with
    | Raise e => (Raise e, w1)
    | Abort b => (Abort b, w1)
    | Ok (probability, highlighted_path) =>
        (Ok (mkResponse
               (JDict [("verdict", JStr (image_verdict probability));
                       ("real_score",
                         JStr (PyFloat.format_2f (real_score probability)));
                       ("fake_score",
                         JStr (PyFloat.format_2f (fake_score probability)));
                       ("explanation", JStr (image_explanation probability));
                       ("analysis_type", JStr "image");
                       ("original_image_url",
                         JStr (url_for "static" ("uploads/" ++ name)));
                       ("analyzed_image_url",
                         analyzed_image_url url_for highlighted_path)])
               200), w1)
    end.
Proof.
  intros Hd. cbn zeta. unfold image_branch, bind.
  rewrite (call_engine_run _ _ _ _ _ _ Hd).
  destruct (fst (predict_image_deepfake D (fs w) up PROCESSED_FOLDER))
    as [[p h]|e|b]; reflexivity.
Qed.

Lemma document_branch_run (name up : string) (w : world) (self : obj_id) :
  detector w = Some self ->
  let call := analyze_document_forgery D (fs w) up PROCESSED_FOLDER in
  let w1 := after_call w self AnalyzeDocumentForgery up PROCESSED_FOLDER
              (fst call) (snd call) in
  document_branch url_for D name up w =
    match fst call with
    | Raise e => (Raise e, w1)
    | Abort b => (Abort b, w1)
    | Ok (forgery_score, verdict, analyzed_path) =>
        (Ok (mkResponse
               (JDict [("verdict", JStr verdict);
                       ("forgery_score", JStr (PyFloat.format_2f forgery_score));
                       ("explanation", JStr (document_explanation verdict));
                       ("analysis_type", JStr "document");
                       ("original_image_url",
                         JStr (url_for "static" ("uploads/" ++ name)));
                       ("analyzed_image_url",
                         analyzed_image_url url_for analyzed_path)])
               200), w1)
    end.
Proof.
  intros Hd. cbn zeta. unfold document_branch, bind.
  rewrite (call_engine_run _ _ _ _ _ _ Hd).
  destruct (fst (analyze_document_forgery D (fs w) up PROCESSED_FOLDER))
    as [[[s v] a]|e|b]; reflexivity.
Qed.

(** Before the module body has bound [detector], every branch ends in a
    [NameError] and leaves the world alone. *)
Lemma branches_unbound (name up : string) (w : world) :
  detector w = None ->
  pdf_branch url_for D name up w = (Raise (NameError "detector"), w) /\
  image_branch url_for D name up w = (Raise (NameError "detector"), w) /\
  document_branch url_for D name up w = (Raise (NameError "detector"), w).
Proof.
  intros Hd. unfold pdf_branch, image_branch, document_branch, bind.
  rewrite !(call_engine_unbound _ _ _ _ _ Hd). auto.
Qed.

End Branches.

(** ** Traces *)

Lemma added_nil (w : world) : added w w [].
Proof. unfold added. now rewrite app_nil_r. Qed.

Lemma added_unique (w w' : world) (evs evs' : list event) :
  added w w' evs -> added w w' evs' -> evs = evs'.
Proof.
  unfold added. intros H H'. rewrite H in H'. now apply app_inv_head in H'.
Qed.

Lemma added_save (w : world) (f : FileStorage) (up : string) :
  added w (after_save w f up) [EvSave up].
Proof. reflexivity. Qed.

(** A save that raised has added nothing to the trace. *)
Lemma added_failed_save (w : world) (files : filesystem) :
  added w (after_failed_save w files) [].
Proof. unfold added, after_failed_save. cbn [trace]. now rewrite app_nil_r. Qed.

Lemma added_trans (w1 w2 w3 : world) (e1 e2 : list event) :
  added w1 w2 e1 -> added w2 w3 e2 -> added w1 w3 (e1 ++ e2).
Proof. unfold added. intros H1 H2. now rewrite H2, H1, app_assoc. Qed.

(** The [except] clause: print, then the generic answer. *)
Lemma on_exception_run (e : exn) (w : world) :
  on_exception e w =
    (Ok internal_error_response,
     log w (EvPrint ("An error occurred during analysis: " ++ exn_text e))).
Proof. reflexivity. Qed.

Lemma pair_of_fst {A B} (c : A * B) (a : A) : fst c = a -> c = (a, snd c).
Proof. intros <-. apply surjective_pairing. Qed.

(** Case analysis of [Hrun : analyze ... req w = (out, w')] for an accepted
    request whose upload was stored: first on the extension and the
    analysis type, then on how the engine call of the branch ended. *)
Ltac split_dispatch Hrun :=
  unfold try_except, dispatch in Hrun;
  match type of Hrun with
  | context [String.eqb (PyStr.lower ?ext) "pdf"] =>
      destruct (String.eqb (PyStr.lower ext) "pdf") eqn:Hpdf
  end;
  match type of Hrun with
  | context [String.eqb ?t "image"] =>
      destruct (String.eqb t "image") eqn:Himage;
      try (match type of Hrun with
           | context [String.eqb t "document"] =>
               destruct (String.eqb t "document") eqn:Hdocument
           end)
  end.

Ltac run_branch Hrun Hd :=
  first
    [ rewrite (pdf_branch_run _ _ _ _ _ _ Hd) in Hrun
    | rewrite (image_branch_run _ _ _ _ _ _ Hd) in Hrun
    | rewrite (document_branch_run _ _ _ _ _ _ Hd) in Hrun
    | idtac ];
  cbn zeta in Hrun;
  repeat match type of Hrun with
    | context [match fst ?c with _ => _ end] =>
        let a := fresh "a" in
        let e := fresh "e" in
        let b := fresh "b" in
        let Hcall := fresh "Hcall" in
        destruct (fst c) as [a|e|b] eqn:Hcall;
        try (destruct a as [[? ?] ?]); try (destruct a as [? ?]);
        cbv beta iota in Hrun
    | context [match url_loop ?u ?l with _ => _ end] =>
        let results := fresh "results" in
        let e := fresh "e" in
        let b := fresh "b" in
        let Hloop := fresh "Hloop" in
        destruct (url_loop u l) as [[[]|e|b] results] eqn:Hloop;
        [ | | exfalso; exact (url_loop_not_abort _ _ _ _ Hloop)];
        cbv beta iota in Hrun
    end;
  unfold ret in Hrun; rewrite ?on_exception_run in Hrun;
  injection Hrun as <- <-.

Ltac run_unbound Hrun Hd :=
  let use u d name up :=
    (let Hu1 := fresh in
     let Hu2 := fresh in
     let Hu3 := fresh in
     destruct (branches_unbound u d name up _ Hd) as (Hu1 & Hu2 & Hu3);
     rewrite ?Hu1, ?Hu2, ?Hu3 in Hrun; clear Hu1 Hu2 Hu3) in
  match type of Hrun with
  | context [pdf_branch ?u ?d ?name ?up _] => use u d name up
  | context [image_branch ?u ?d ?name ?up _] => use u d name up
  | context [document_branch ?u ?d ?name ?up _] => use u d name up
  | _ => idtac
  end;
  unfold ret in Hrun; cbv beta iota zeta in Hrun;
  rewrite ?on_exception_run in Hrun;
  injection Hrun as <- <-.

(** ** Every way a request can end *)

Section Outcomes.

Variable secure_filename : string -> string.
Variable save_error :
  filesystem -> string -> string -> option (exn * filesystem).
Variable url_for : string -> string -> string.
Variable D : DetectorClass.

(** The paths through [analyze] for an accepted request, each with its
    result and with the events it adds to the trace. *)
Lemma accepted_outcomes (req : request) (f : FileStorage) (t : string)
    (w w' : world) (out : result response) :
  accepted req f t ->
  analyze secure_filename save_error url_for D req w = (out, w') ->
  let name := secure_filename (filename f) in
  let up := PyStr.os_path_join UPLOAD_FOLDER name in
  (exists e files,
     save_error (fs w) up (stream f) = Some (e, files) /\
     out = Raise e /\ w' = after_failed_save w files)
  \/
  (save_error (fs w) up (stream f) = None /\
   ((out = Raise IndexError /\
     nth_error (PyStr.rsplit1 "." name) 1 = None /\
     w' = after_save w f up)
    \/
    exists ext,
      nth_error (PyStr.rsplit1 "." name) 1 = Some ext /\
      ((out = Ok (error_response msg_pdf_not_image 400) /\
        PyStr.lower ext = "pdf" /\ t = "image" /\ w' = after_save w f up)
       \/
       (out = Ok (error_response msg_invalid_analysis_type 400) /\
        String.eqb (PyStr.lower ext) "pdf" = false /\
        String.eqb t "image" = false /\ String.eqb t "document" = false /\
        w' = after_save w f up)
       \/
       exists op,
         selects ext t op /\
         ((detector w = None /\ out = Ok internal_error_response /\
           added w w'
             [EvSave up; EvPrint (error_line (NameError "detector"))])
          \/
          exists self,
            detector w = Some self /\
            ((exists e,
                engine_raises D op (fs (after_save w f up)) up
                  PROCESSED_FOLDER e /\
                out = Ok internal_error_response /\
                added w w' [EvSave up; EvEngine self op up PROCESSED_FOLDER;
                            EvEngineRaised op e; EvPrint (error_line e)])
             \/
             (exists b,
                engine_aborts D op (fs (after_save w f up)) up
                  PROCESSED_FOLDER b /\
                out = Abort b /\
                added w w' [EvSave up; EvEngine self op up PROCESSED_FOLDER;
                            EvEngineAborted op b])
             \/
             (exists e,
                op = AnalyzePdfForgery /\
                out = Ok internal_error_response /\
                added w w' [EvSave up; EvEngine self op up PROCESSED_FOLDER;
                            EvPrint (error_line e)])
             \/
             (exists resp,
                out = Ok resp /\ status resp = 200 /\
                field resp "analysis_type" = Some (JStr (tag op)) /\
                success_response url_for D op (fs (after_save w f up))
                  name up resp /\
                added w w' [EvSave up;
                            EvEngine self op up PROCESSED_FOLDER])))))).
Proof.
  intros Hacc Hrun. cbn zeta.
  rewrite (analyze_accepted secure_filename save_error url_for D req f t w
             Hacc) in Hrun.
  cbn zeta in Hrun.
  destruct (save_error _ _ _) as [[e0 files0]|] eqn:Hsave.
  { left. exists e0, files0. injection Hrun as <- <-. auto. }
  right. split; [reflexivity|].
  destruct (nth_error _ 1) as [ext|].
  2:{ left. injection Hrun as <- <-. auto. }
  right. exists ext. split; [reflexivity|].
  split_dispatch Hrun.
  all: match type of Hrun with
       | context [after_save ?w ?f ?up] =>
           destruct (detector (after_save w f up)) as [self|] eqn:Hd
       end.
  all: first [run_branch Hrun Hd | run_unbound Hrun Hd].
  all: cbn [detector after_save log fs_write] in Hd.
  all:
    let added_tac :=
      (unfold added, error_line;
       cbn [trace after_call after_save log fs_write raised_event];
       rewrite <- ?app_assoc; reflexivity) in
    let facts :=
      (repeat split;
       first [reflexivity | assumption
             | apply String.eqb_eq; assumption | added_tac]) in
    let success :=
      (cbn [success_response];
       repeat eexists;
       first [ apply pair_of_fst; eassumption | eassumption ]) in
    let engine_cases :=
      (first
         [ solve [left; repeat split;
                  first [assumption | reflexivity | added_tac]]
         | right; eexists; split; [eassumption|];
           first
             [ solve [left; eexists; split; [exact Hcall|];
                      split; [reflexivity | added_tac]]
             | solve [right; left; eexists; split; [exact Hcall|];
                      split; [reflexivity | added_tac]]
             | solve [right; right; left; eexists; split; [reflexivity|];
                      split; [reflexivity | added_tac]]
             | solve [right; right; right; eexists; split; [reflexivity|];
                      split; [reflexivity|];
                      split; [reflexivity|];
                      split; [success | added_tac]] ] ]) in
    first
      [ solve [left; facts]
      | solve [right; left; facts]
      | right; right;
        first
          [ solve [exists AnalyzePdfForgery;
                   split; [cbn; facts | engine_cases]]
          | solve [exists PredictImageDeepfake;
                   split; [cbn; facts | engine_cases]]
          | solve [exists AnalyzeDocumentForgery;
                   split; [cbn; facts | engine_cases]] ] ].
Qed.

(** The same paths for any request, read as the list of events added. *)
Lemma run_cases (req : request) (w w' : world) (out : result response)
    (evs : list event) :
  analyze secure_filename save_error url_for D req w = (out, w') ->
  added w w' evs ->
  (evs = [] /\ w' = w /\
   (exists msg, In msg validation_messages /\
                out = Ok (error_response msg 400)) /\
   ~ (exists f t, accepted req f t))
  \/
  exists f t,
    accepted req f t /\
    let name := secure_filename (filename f) in
    let up := PyStr.os_path_join UPLOAD_FOLDER name in
    ((exists e files,
        save_error (fs w) up (stream f) = Some (e, files) /\
        out = Raise e /\ w' = after_failed_save w files /\ evs = [])
     \/
     (save_error (fs w) up (stream f) = None /\
      ((evs = [EvSave up] /\ w' = after_save w f up /\
        ((out = Raise IndexError /\
          nth_error (PyStr.rsplit1 "." name) 1 = None)
         \/
         exists ext,
           nth_error (PyStr.rsplit1 "." name) 1 = Some ext /\
           ((out = Ok (error_response msg_pdf_not_image 400) /\
             PyStr.lower ext = "pdf" /\ t = "image")
            \/
            (out = Ok (error_response msg_invalid_analysis_type 400) /\
             String.eqb (PyStr.lower ext) "pdf" = false /\
             String.eqb t "image" = false /\
             String.eqb t "document" = false))))
       \/
       exists ext op,
         nth_error (PyStr.rsplit1 "." name) 1 = Some ext /\
         selects ext t op /\
         ((detector w = None /\ out = Ok internal_error_response /\
           evs = [EvSave up; EvPrint (error_line (NameError "detector"))])
          \/
          exists self,
            detector w = Some self /\
            ((exists e,
                engine_raises D op (fs (after_save w f up)) up
                  PROCESSED_FOLDER e /\
                out = Ok internal_error_response /\
                evs = [EvSave up; EvEngine self op up PROCESSED_FOLDER;
                       EvEngineRaised op e; EvPrint (error_line e)])
             \/
             (exists b,
                engine_aborts D op (fs (after_save w f up)) up
                  PROCESSED_FOLDER b /\
                out = Abort b /\
                evs = [EvSave up; EvEngine self op up PROCESSED_FOLDER;
                       EvEngineAborted op b])
             \/
             (exists e,
                op = AnalyzePdfForgery /\
                out = Ok internal_error_response /\
                evs = [EvSave up; EvEngine self op up PROCESSED_FOLDER;
                       EvPrint (error_line e)])
             \/
             (exists resp,
                out = Ok resp /\ status resp = 200 /\
                field resp "analysis_type" = Some (JStr (tag op)) /\
                success_response url_for D op (fs (after_save w f up))
                  name up resp /\
                evs = [EvSave up;
                       EvEngine self op up PROCESSED_FOLDER])))))).
Proof.
  intros Hrun Hadd.
  destruct (request_cases req) as [Hbad | (f & t & Hacc)].
  - left.
    destruct (analyze_rejected secure_filename save_error url_for D req w
                Hbad)
      as (msg & Hin & Hrej).
    rewrite Hrej in Hrun. injection Hrun as <- <-.
    split; [exact (added_unique _ _ _ _ Hadd (added_nil w))|].
    split; [reflexivity|]. split; [exists msg; auto|].
    intros (f & t & Hacc). exact (accepted_not_rejected req f t Hacc Hbad).
  - right. exists f, t. split; [exact Hacc|]. cbn zeta.
    destruct (accepted_outcomes req f t w w' out Hacc Hrun)
      as [(e & files & Hsave & -> & ->) | (Hsave & Hrest)].
    { left. exists e, files. repeat split; trivial.
      exact (added_unique _ _ _ _ Hadd (added_failed_save _ _)). }
    right. split; [exact Hsave|].
    destruct Hrest as [(-> & Hext & ->) | (ext & Hext & Hrest)].
    { left. split; [exact (added_unique _ _ _ _ Hadd (added_save _ _ _))|].
      split; [reflexivity|]. left. auto. }
    destruct Hrest as [(-> & Hpdf & -> & ->)
                      | [(-> & Hpdf & Hi & Hd & ->) | (op & Hsel & Hrest)]].
    { left. split; [exact (added_unique _ _ _ _ Hadd (added_save _ _ _))|].
      split; [reflexivity|]. right. exists ext. split; [exact Hext|].
      left. auto. }
    { left. split; [exact (added_unique _ _ _ _ Hadd (added_save _ _ _))|].
      split; [reflexivity|]. right. exists ext. split; [exact Hext|].
      right. auto. }
    right. exists ext, op. split; [exact Hext|]. split; [exact Hsel|].
    destruct Hrest as [(Hd & -> & Hadd') | (self & Hd & Hrest)].
    { left. split; [exact Hd|]. split; [reflexivity|].
      exact (added_unique _ _ _ _ Hadd Hadd'). }
    right. exists self. split; [exact Hd|].
    destruct Hrest as [(e & Hcall & -> & Hadd')
                      | [(b & Hcall & -> & Hadd')
                        | [(e & -> & -> & Hadd')
                          | (resp & -> & Hst & Hfield & Hok & Hadd')]]].
    + left. exists e. split; [exact Hcall|]. split; [reflexivity|].
      exact (added_unique _ _ _ _ Hadd Hadd').
    + right. left. exists b. split; [exact Hcall|]. split; [reflexivity|].
      exact (added_unique _ _ _ _ Hadd Hadd').
    + right. right. left. exists e. repeat split.
      exact (added_unique _ _ _ _ Hadd Hadd').
    + right. right. right. exists resp. repeat split; trivial.
      exact (added_unique _ _ _ _ Hadd Hadd').
Qed.

End Outcomes.

(** ** Validation failures and engine failures *)

Section Failures.

Variable secure_filename : string -> string.
Variable save_error :
  filesystem -> string -> string -> option (exn * filesystem).
Variable url_for : string -> string -> string.
Variable D : DetectorClass.

(** C6.  A request whose file name fails the extension allow-list, or whose
    analysis type is missing, is answered with status 400 and one of the
    specific validation messages; the handler stops before it stores the
    upload, so the world is unchanged and the engine is never invoked. *)
Theorem invalid_request_rejected (req : request) (w : world) :
  fails_validation req ->
  exists msg,
    In msg validation_messages /\
    msg <> msg_internal_error /\
    fst (analyze secure_filename save_error url_for D req w) =
      Ok (error_response msg 400) /\
    snd (analyze secure_filename save_error url_for D req w) = w /\
    (forall evs,
       added w (snd (analyze secure_filename save_error url_for D req w))
         evs ->
       engine_untouched evs).
Proof.
  intros Hbad.
  destruct (analyze_rejected secure_filename save_error url_for D req w
              (or_intror Hbad))
    as (msg & Hin & Hrun).
  exists msg. rewrite Hrun. cbn [fst snd]. repeat split; trivial.
  - unfold validation_messages in Hin. cbn [In] in Hin.
    destruct Hin as [<-|[<-|[<-|[<-|[]]]]]; discriminate.
  - intros evs Hadd.
    rewrite (added_unique _ _ _ _ Hadd (added_nil w)). reflexivity.
Qed.

(** C7.  Whenever an engine call raises, whatever the exception, the
    handler answers with the one generic internal-error response. *)
Theorem engine_failure_is_generic (req : request) (w w' : world)
    (out : result response) (evs : list event) (op : engine_op) (e : exn) :
  analyze secure_filename save_error url_for D req w = (out, w') ->
  added w w' evs ->
  In (EvEngineRaised op e) evs ->
  out = Ok internal_error_response.
Proof.
  intros Hrun Hadd Hin.
  destruct (run_cases secure_filename save_error url_for D req w w' out evs
              Hrun Hadd)
    as [(-> & _) | (f & t & Hacc & Hrest)]; [destruct Hin|].
  cbn zeta in Hrest.
  destruct Hrest as [(e0 & files & _ & _ & _ & ->) | (_ & Hrest)];
    [destruct Hin|].
  destruct Hrest as [(-> & _) | (ext & op' & _ & _ & Hrest)].
  { destruct Hin as [Hin|[]]; discriminate. }
  destruct Hrest as [(_ & -> & _) | (self & _ & Hrest)]; [reflexivity|].
  destruct Hrest as [(e1 & _ & -> & _)
                    | [(b & _ & _ & ->)
                      | [(e1 & _ & -> & _) | (resp & _ & _ & _ & _ & ->)]]];
    try reflexivity;
    cbn [In] in Hin; exfalso;
    repeat match type of Hin with
      | _ \/ _ => destruct Hin as [Hin|Hin]
      | False => destruct Hin
      end;
    discriminate.
Qed.

End Failures.

Lemma invalid_request_rejected_witness :
  let req := Samples.upload "setup.exe" "image" in
  let run := analyze Werkzeug.secure_filename posix_save_error flask_url_for
               (Samples.steady PyFloat.half) req Samples.ready in
  fails_validation req /\
  exists msg,
    In msg validation_messages /\
    msg <> msg_internal_error /\
    fst run = Ok (error_response msg 400) /\
    snd run = Samples.ready /\
    (forall evs, added Samples.ready (snd run) evs -> engine_untouched evs).
Proof.
  cbv zeta.
  assert (Hbad : fails_validation (Samples.upload "setup.exe" "image")).
  { left. exists (mkFile "setup.exe" "data"). split; reflexivity. }
  split; [exact Hbad|].
  exact (invalid_request_rejected Werkzeug.secure_filename posix_save_error
           flask_url_for (Samples.steady PyFloat.half) _ Samples.ready Hbad).
Defined.

Lemma engine_failure_is_generic_witness :
  fst (analyze Werkzeug.secure_filename posix_save_error flask_url_for
         (Samples.failing Samples.decode_error)
         (Samples.upload "scan.png" "document") Samples.ready)
  = Ok internal_error_response.
Proof.
  set (run := analyze _ _ _ _ _ _).
  apply (engine_failure_is_generic Werkzeug.secure_filename posix_save_error
           flask_url_for
           (Samples.failing Samples.decode_error)
           (Samples.upload "scan.png" "document") Samples.ready (snd run)
           (fst run)
           [EvSave "static/uploads/scan.png";
            EvEngine 0%nat AnalyzeDocumentForgery "static/uploads/scan.png"
              PROCESSED_FOLDER;
            EvEngineRaised AnalyzeDocumentForgery Samples.decode_error;
            EvPrint "An error occurred during analysis: cannot identify image file"]
           AnalyzeDocumentForgery Samples.decode_error).
  - reflexivity.
  - reflexivity.
  - simpl. auto.
Defined.

(** ** One detector for the whole process *)

Section SharedDetector.

Variable secure_filename : string -> string.
Variable save_error :
  filesystem -> string -> string -> option (exn * filesystem).
Variable url_for : string -> string -> string.
Variable D : DetectorClass.

Lemma handler_step_refl (w : world) : handler_step w w.
Proof.
  unfold handler_step. repeat split. exists []. now rewrite app_nil_r.
Qed.

Lemma handler_step_trans (w1 w2 w3 : world) :
  handler_step w1 w2 -> handler_step w2 w3 -> handler_step w1 w3.
Proof.
  intros (Hd & Hh & evs & Ht & Hall) (Hd' & Hh' & evs' & Ht' & Hall').
  unfold handler_step. repeat split; try congruence.
  exists (evs ++ evs')%list. split.
  - rewrite Ht', Ht. now rewrite app_assoc.
  - apply Forall_app. split; [exact Hall|].
    rewrite Hd in Hall'. exact Hall'.
Qed.

(** [analyze] keeps the global binding and the heap, creates no detector,
    and calls the engine only on the object the global names. *)
Lemma analyze_step (req : request) (w : world) :
  handler_step w (snd (analyze secure_filename save_error url_for D req w)).
Proof.
  destruct (analyze secure_filename save_error url_for D req w)
    as [out w'] eqn:Hrun.
  cbn [snd].
  destruct (request_cases req) as [Hbad | (f & t & Hacc)].
  - destruct (analyze_rejected secure_filename save_error url_for D req w
                Hbad)
      as (msg & _ & Hrej).
    rewrite Hrej in Hrun. injection Hrun as <- <-. apply handler_step_refl.
  - rewrite (analyze_accepted secure_filename save_error url_for D req f t w
               Hacc) in Hrun.
    cbn zeta in Hrun.
    destruct (save_error _ _ _) as [[e0 files0]|].
    { injection Hrun as <- <-. unfold handler_step, after_failed_save.
      cbn [detector heap_next trace]. repeat split.
      exists []. split; [now rewrite app_nil_r | constructor]. }
    destruct (nth_error _ 1) as [ext|].
    2:{ injection Hrun as <- <-. unfold handler_step. cbn. repeat split.
        eexists. split; [reflexivity|].
        repeat constructor; cbn; congruence. }
    split_dispatch Hrun.
    all: match type of Hrun with
         | context [after_save ?w ?f ?up] =>
             destruct (detector (after_save w f up)) as [self|] eqn:Hd
         end.
    all: first [run_branch Hrun Hd | run_unbound Hrun Hd].
    all: cbn [detector after_save log fs_write] in Hd.
    all: unfold handler_step;
      cbn [detector heap_next trace after_call after_save log fs_write
           raised_event];
      split; [reflexivity|split; [reflexivity|]];
      rewrite <- ?app_assoc; eexists; (split; [reflexivity|]);
      repeat constructor; cbn; congruence.
Qed.

Lemma handle_step (r : http_request) (w : world) :
  handler_step w (snd (handle secure_filename save_error url_for D r w)).
Proof.
  destruct r as [|req]; cbn [handle snd]; [apply handler_step_refl|].
  pose proof (analyze_step req w) as Hstep.
  destruct (analyze secure_filename save_error url_for D req w)
    as [[resp|e|b] w'];
    exact Hstep.
Qed.

Lemma serve_step (rs : list http_request) (w : world) :
  handler_step w (snd (serve secure_filename save_error url_for D rs w)) /\
  List.length (fst (serve secure_filename save_error url_for D rs w))
  = List.length rs.
Proof.
  revert w. induction rs as [|r rs IH]; intros w; cbn [serve].
  - split; [apply handler_step_refl | reflexivity].
  - pose proof (handle_step r w) as H1.
    destruct (handle secure_filename save_error url_for D r w) as [o w1].
    cbn [snd] in H1.
    destruct (IH w1) as [H2 Hlen].
    destruct (serve secure_filename save_error url_for D rs w1) as [os w2].
    cbn [fst snd] in *. split; [|cbn [List.length]; now rewrite Hlen].
    exact (handler_step_trans _ _ _ H1 H2).
Qed.

Lemma no_construct_filter (evs : list event) (P : event -> Prop) :
  Forall (fun e => is_construct e = false /\ P e) evs ->
  filter is_construct evs = [].
Proof.
  induction 1 as [|e evs [He _] _ IH]; [reflexivity|].
  cbn [filter]. now rewrite He.
Qed.

(** The module body on a fresh process: two folders, one detector. *)
Lemma module_body_run :
  module_body D initial_world =
    match init D [] with
    | None => (Ok tt, Samples.ready)
    | Some e =>
        (Raise e,
         mkWorld [] None 1%nat
           [EvMakedirs UPLOAD_FOLDER; EvMakedirs PROCESSED_FOLDER;
            EvConstruct 0%nat])
    end.
Proof.
  unfold module_body, bind, makedirs, emit, construct, bind_detector.
  cbn. destruct (init D []); reflexivity.
Qed.

(** C8.  The detector is constructed exactly once, by the module body and
    before any request is served; every engine call of every request goes
    to that one object; and no request handler creates a detector, rebinds
    the global or touches the heap. *)
Theorem detector_constructed_once :
  (forall r w,
     handler_step w
       (snd (handle secure_filename save_error url_for D r w))) /\
  (forall rs,
     let w := snd (run secure_filename save_error url_for D rs) in
     heap_next w = 1%nat /\
     filter is_construct (trace w) = [EvConstruct 0%nat] /\
     (exists evs,
        trace w = ([EvMakedirs UPLOAD_FOLDER; EvMakedirs PROCESSED_FOLDER;
                    EvConstruct 0%nat] ++ evs)%list /\
        filter is_construct evs = []) /\
     (forall e self, In e (trace w) -> receiver e = Some self -> self = 0%nat) /\
     (forall os,
        fst (run secure_filename save_error url_for D rs) = Ok os ->
        detector w = Some 0%nat /\
        List.length os = List.length rs)).
Proof.
  split; [exact handle_step|].
  intros rs. cbv zeta. unfold run. rewrite module_body_run.
  destruct (init D []) as [e|].
  - cbn [fst snd heap_next trace filter is_construct].
    repeat split; trivial.
    + exists []. split; reflexivity.
    + intros ev self Hin Hr. cbn [In] in Hin.
      destruct Hin as [<-|[<-|[<-|[]]]]; discriminate.
    + discriminate.
    + discriminate.
  - destruct (serve_step rs Samples.ready) as [Hstep Hlen].
    destruct (serve secure_filename save_error url_for D rs Samples.ready)
      as [os w'].
    cbn [fst snd] in *.
    destruct Hstep as (Hd & Hh & evs & Ht & Hall).
    pose proof (no_construct_filter _ _ Hall) as Hnone.
    repeat split.
    + exact Hh.
    + rewrite Ht. cbn [Samples.ready trace].
      rewrite filter_app, Hnone. reflexivity.
    + exists evs. split; [exact Ht | exact Hnone].
    + intros ev self Hin Hr. rewrite Ht in Hin. apply in_app_or in Hin.
      destruct Hin as [Hin|Hin].
      * cbn [Samples.ready trace In] in Hin.
        destruct Hin as [<-|[<-|[<-|[]]]]; discriminate.
      * rewrite Forall_forall in Hall. destruct (Hall ev Hin) as [_ Hrecv].
        specialize (Hrecv self Hr). cbn in Hrecv. congruence.
    + exact Hd.
    + injection H as <-. exact Hlen.
Qed.

End SharedDetector.

(** ** Successful responses and the call behind them *)

Section Tagged.

Variable secure_filename : string -> string.
Variable save_error :
  filesystem -> string -> string -> option (exn * filesystem).
Variable url_for : string -> string -> string.
Variable D : DetectorClass.

(** A response that carries an ['analysis_type'] comes from the branch of
    that name: the upload was stored, the engine method of the branch
    returned, and the response was built from what it gave. *)
Lemma tagged_response (req : request) (w w' : world) (resp : response)
    (s : string) :
  analyze secure_filename save_error url_for D req w = (Ok resp, w') ->
  field resp "analysis_type" = Some (JStr s) ->
  exists f t op,
    accepted req f t /\
    tag op = s /\
    let name := secure_filename (filename f) in
    let up := PyStr.os_path_join UPLOAD_FOLDER name in
    save_error (fs w) up (stream f) = None /\
    status resp = 200 /\
    success_response url_for D op (fs (after_save w f up)) name up resp.
Proof.
  intros Hrun Hfield.
  destruct (request_cases req) as [Hbad | (f & t & Hacc)].
  - destruct (analyze_rejected secure_filename save_error url_for D req w
                Hbad)
      as (msg & _ & Hrej).
    rewrite Hrej in Hrun. injection Hrun as <- <-. discriminate Hfield.
  - exists f, t.
    destruct (accepted_outcomes secure_filename save_error url_for D req f t
                w w' _ Hacc Hrun)
      as [(e & files & _ & H & _) | (Hsave & Hrest)]; [discriminate|].
    destruct Hrest as [(H & _) | (ext & _ & Hrest)]; [discriminate|].
    destruct Hrest as [(H & _) | [(H & _) | (op & _ & Hrest)]];
      try (injection H as ->; discriminate Hfield).
    exists op. split; [exact Hacc|].
    destruct Hrest as [(_ & H & _) | (self & _ & Hrest)];
      [injection H as ->; discriminate Hfield|].
    destruct Hrest as [(e & _ & H & _)
                      | [(b & _ & H & _)
                        | [(e & _ & H & _) | (r & H & Hst & Htag & Hok & _)]]];
      try discriminate H;
      try (injection H as ->; discriminate Hfield).
    injection H as <-. split; [congruence|]. cbn zeta. auto.
Qed.

(** A response tagged ['image'] comes from exactly one place: the image
    branch, after [predict_image_deepfake] has returned a probability. *)
Lemma image_response_inv (req : request) (w w' : world) (resp : response) :
  analyze secure_filename save_error url_for D req w = (Ok resp, w') ->
  field resp "analysis_type" = Some (JStr "image") ->
  exists f t p h files files',
    accepted req f t /\
    let name := secure_filename (filename f) in
    let up := PyStr.os_path_join UPLOAD_FOLDER name in
    predict_image_deepfake D files up PROCESSED_FOLDER = (Ok (p, h), files') /\
    files = fs (after_save w f up) /\
    resp =
      mkResponse
        (JDict [("verdict", JStr (image_verdict p));
                ("real_score", JStr (PyFloat.format_2f (real_score p)));
                ("fake_score", JStr (PyFloat.format_2f (fake_score p)));
                ("explanation", JStr (image_explanation p));
                ("analysis_type", JStr "image");
                ("original_image_url",
                  JStr (url_for "static" ("uploads/" ++ name)));
                ("analyzed_image_url", analyzed_image_url url_for h)])
        200.
Proof.
  intros Hrun Hfield.
  destruct (tagged_response req w w' resp "image" Hrun Hfield)
    as (f & t & op & Hacc & Htag & _ & _ & Hok).
  destruct op; try discriminate Htag.
  cbn [success_response] in Hok.
  destruct Hok as (p & h & files' & Hcall & ->).
  exists f, t, p, h. eexists. exists files'.
  split; [exact Hacc|]. cbn zeta. split; [exact Hcall|]. split; reflexivity.
Qed.

(** A response tagged ['document'] comes from the document branch, after
    [analyze_document_forgery] has returned. *)
Lemma document_response_from_call (req : request) (w w' : world)
    (resp : response) :
  analyze secure_filename save_error url_for D req w = (Ok resp, w') ->
  field resp "analysis_type" = Some (JStr "document") ->
  exists f t score verdict path files',
    accepted req f t /\
    let name := secure_filename (filename f) in
    let up := PyStr.os_path_join UPLOAD_FOLDER name in
    analyze_document_forgery D (fs (after_save w f up)) up PROCESSED_FOLDER
      = (Ok (score, verdict, path), files') /\
    resp =
      mkResponse
        (JDict [("verdict", JStr verdict);
                ("forgery_score", JStr (PyFloat.format_2f score));
                ("explanation", JStr (document_explanation verdict));
                ("analysis_type", JStr "document");
                ("original_image_url",
                  JStr (url_for "static" ("uploads/" ++ name)));
                ("analyzed_image_url", analyzed_image_url url_for path)])
        200.
Proof.
  intros Hrun Hfield.
  destruct (tagged_response req w w' resp "document" Hrun Hfield)
    as (f & t & op & Hacc & Htag & _ & _ & Hok).
  destruct op; try discriminate Htag.
  cbn [success_response] in Hok.
  destruct Hok as (score & verdict & path & files' & Hcall & ->).
  exists f, t, score, verdict, path, files'.
  split; [exact Hacc|]. cbn zeta. split; [exact Hcall | reflexivity].
Qed.

(** A response tagged ['pdf'] comes from the PDF branch, after
    [analyze_pdf_forgery] has returned and the URL loop has run through. *)
Lemma pdf_response_from_call (req : request) (w w' : world)
    (resp : response) :
  analyze secure_filename save_error url_for D req w = (Ok resp, w') ->
  field resp "analysis_type" = Some (JStr "pdf") ->
  exists f t pdf_results results files',
    accepted req f t /\
    let name := secure_filename (filename f) in
    let up := PyStr.os_path_join UPLOAD_FOLDER name in
    analyze_pdf_forgery D (fs (after_save w f up)) up PROCESSED_FOLDER
      = (Ok pdf_results, files') /\
    url_loop url_for pdf_results = (Ok tt, results) /\
    resp =
      mkResponse
        (JDict [("analysis_type", JStr "pdf");
                ("results", JList (map JDict results));
                ("original_filename", JStr name)])
        200.
Proof.
  intros Hrun Hfield.
  destruct (tagged_response req w w' resp "pdf" Hrun Hfield)
    as (f & t & op & Hacc & Htag & _ & _ & Hok).
  destruct op; try discriminate Htag.
  cbn [success_response] in Hok.
  destruct Hok as (pdf_results & results & files' & Hcall & Hloop & ->).
  exists f, t, pdf_results, results, files'.
  split; [exact Hacc|]. cbn zeta. auto.
Qed.

End Tagged.

(** ** Image analysis *)


Section ImageAnalysis.

Variable secure_filename : string -> string.
Variable save_error :
  filesystem -> string -> string -> option (exn * filesystem).
Variable url_for : string -> string -> string.
Variable D : DetectorClass.


End ImageAnalysis.



(** ** The two scores of an image response *)

Section Scores.

Variable secure_filename : string -> string.
Variable save_error :
  filesystem -> string -> string -> option (exn * filesystem).
Variable url_for : string -> string -> string.
Variable D : DetectorClass.

(** C10, as amended.  The two scores of an image response are the binary64
    results of [(1 - p) * 100] and [p * 100], printed with two decimals;
    on the exact value of [p] the two expressions add up to 100. *)
Theorem image_scores_formulas (req : request) (w w' : world)
    (resp : response) :
  analyze secure_filename save_error url_for D req w = (Ok resp, w') ->
  field resp "analysis_type" = Some (JStr "image") ->
  exists f p h files',
    files_file req = Some f /\
    (let up := PyStr.os_path_join UPLOAD_FOLDER
                 (secure_filename (filename f)) in
     predict_image_deepfake D (fs (after_save w f up)) up PROCESSED_FOLDER
       = (Ok (p, h), files')) /\
    field resp "real_score" =
      Some (JStr (PyFloat.format_2f
                    (PyFloat.mul (PyFloat.sub (PyFloat.of_int 1) p)
                                 (PyFloat.of_int 100)))) /\
    field resp "fake_score" =
      Some (JStr (PyFloat.format_2f (PyFloat.mul p (PyFloat.of_int 100)))) /\
    ((1 - PyFloat.to_Q p) * 100 + PyFloat.to_Q p * 100 == 100)%Q.
Proof.
  intros Hrun Hfield.
  destruct (image_response_inv secure_filename save_error url_for D req w w'
              resp Hrun Hfield)
    as (f & t & p & h & files & files' & Hacc & Hcall & -> & ->).
  exists f, p, h, files'. split; [exact (proj1 Hacc)|].
  split; [exact Hcall|].
  repeat split. ring.
Qed.

End Scores.

Lemma image_scores_formulas_witness :
  exists f p h files',
    files_file (Samples.upload "face.png" "image") = Some f /\
    (let up := PyStr.os_path_join UPLOAD_FOLDER
                 (Werkzeug.secure_filename (filename f)) in
     predict_image_deepfake (Samples.steady PyFloat.half)
       (fs (after_save Samples.ready f up)) up PROCESSED_FOLDER
       = (Ok (p, h), files')) /\
    field Samples.image_reply "real_score" =
      Some (JStr (PyFloat.format_2f
                    (PyFloat.mul (PyFloat.sub (PyFloat.of_int 1) p)
                                 (PyFloat.of_int 100)))) /\
    field Samples.image_reply "fake_score" =
      Some (JStr (PyFloat.format_2f (PyFloat.mul p (PyFloat.of_int 100)))) /\
    ((1 - PyFloat.to_Q p) * 100 + PyFloat.to_Q p * 100 == 100)%Q.
Proof.
  apply (image_scores_formulas Werkzeug.secure_filename posix_save_error
           flask_url_for
           (Samples.steady PyFloat.half) (Samples.upload "face.png" "image")
           Samples.ready
           (snd (analyze Werkzeug.secure_filename posix_save_error flask_url_for
                   (Samples.steady PyFloat.half)
                   (Samples.upload "face.png" "image") Samples.ready))
           Samples.image_reply).
  - vm_compute. reflexivity.
  - vm_compute. reflexivity.
Defined.

(** For the probability 0.34, which lies in [0,1], the two scores are
    65.99999999999999 and 34.0: neither their binary64 sum nor their
    exact sum is 100. *)
Lemma scores_of_034_miss_100 :
  PyFloat.le (PyFloat.of_int 0) Samples.p034 = true /\
  PyFloat.le Samples.p034 (PyFloat.of_int 1) = true /\
  real_score Samples.p034 = S754_finite false 4644337115725823 (-46) /\
  fake_score Samples.p034 = S754_finite false 4785074604081152 (-47) /\
  PyFloat.eqb (PyFloat.add (real_score Samples.p034) (fake_score Samples.p034))
              (PyFloat.of_int 100) = false /\
  ~ (PyFloat.to_Q (real_score Samples.p034)
     + PyFloat.to_Q (fake_score Samples.p034) == 100)%Q.
Proof.
  repeat split; try (vm_compute; reflexivity).
  vm_compute. discriminate.
Qed.

(** ** Document analysis *)

Section DocumentAnalysis.

Variable secure_filename : string -> string.
Variable save_error :
  filesystem -> string -> string -> option (exn * filesystem).
Variable url_for : string -> string -> string.
Variable D : DetectorClass.

(** A response tagged ['document'] carries the verdict and the score of
    [analyze_document_forgery] as they are, and explains a forgery exactly
    when the verdict is the string "Suspicious Forgery". *)
Lemma document_response_inv (req : request) (w w' : world) (resp : response) :
  analyze secure_filename save_error url_for D req w = (Ok resp, w') ->
  field resp "analysis_type" = Some (JStr "document") ->
  exists score verdict path files up files',
    analyze_document_forgery D files up PROCESSED_FOLDER
      = (Ok (score, verdict, path), files') /\
    field resp "verdict" = Some (JStr verdict) /\
    field resp "forgery_score" = Some (JStr (PyFloat.format_2f score)) /\
    field resp "explanation" = Some (JStr (document_explanation verdict)).
Proof.
  intros Hrun Hfield.
  destruct (document_response_from_call secure_filename save_error url_for D
              req w w' resp Hrun Hfield)
    as (f & t & score & verdict & path & files' & _ & Hcall & ->).
  exists score, verdict, path. do 2 eexists. exists files'.
  split; [exact Hcall|]. repeat split.
Qed.

End DocumentAnalysis.

(** ** Dispatch on the extension *)

Section PdfDispatch.

Variable secure_filename : string -> string.
Variable save_error :
  filesystem -> string -> string -> option (exn * filesystem).
Variable url_for : string -> string -> string.
Variable D : DetectorClass.

(** When the upload has been written, the sanitised name ends in [.pdf]
    and the analysis type is ['image'], the answer is the specific 400
    message; the upload has been stored and nothing else has happened. *)
Lemma pdf_image_rejected (req : request) (f : FileStorage) (ext : string)
    (w : world) :
  accepted req f "image" ->
  let up := PyStr.os_path_join UPLOAD_FOLDER (secure_filename (filename f)) in
  save_error (fs w) up (stream f) = None ->
  nth_error (PyStr.rsplit1 "." (secure_filename (filename f))) 1 = Some ext ->
  PyStr.lower ext = "pdf" ->
  analyze secure_filename save_error url_for D req w =
    (Ok (error_response msg_pdf_not_image 400), after_save w f up) /\
  added w (after_save w f up) [EvSave up] /\
  engine_untouched [EvSave up].
Proof.
  intros Hacc up Hsave Hext Hpdf. subst up.
  rewrite (analyze_accepted secure_filename save_error url_for D req f
             "image" w Hacc).
  cbn zeta. rewrite Hsave, Hext, Hpdf. repeat split.
Qed.

(** When the upload has been written and the sanitised name ends in
    [.pdf], any analysis type other than ['image'] reaches
    [analyze_pdf_forgery]; unless that call ends in a [BaseException], the
    answer is the PDF report or the generic error, never the invalid-type
    message. *)
Lemma pdf_dispatch_ignores_type (req : request) (f : FileStorage)
    (t ext : string) (w : world) (self : obj_id) :
  accepted req f t ->
  String.eqb t "image" = false ->
  let up := PyStr.os_path_join UPLOAD_FOLDER (secure_filename (filename f)) in
  save_error (fs w) up (stream f) = None ->
  nth_error (PyStr.rsplit1 "." (secure_filename (filename f))) 1 = Some ext ->
  PyStr.lower ext = "pdf" ->
  detector w = Some self ->
  exists out w' evs,
    analyze secure_filename save_error url_for D req w = (out, w') /\
    added w w' evs /\
    In (EvEngine self AnalyzePdfForgery up PROCESSED_FOLDER) evs /\
    out <> Ok (error_response msg_invalid_analysis_type 400) /\
    (out = Ok internal_error_response \/
     (exists b, out = Abort b /\
                engine_aborts D AnalyzePdfForgery (fs (after_save w f up)) up
                  PROCESSED_FOLDER b) \/
     exists resp, out = Ok resp /\
                  field resp "analysis_type" = Some (JStr "pdf")).
Proof.
  intros Hacc Himage up Hsave Hext Hpdf Hd. subst up.
  destruct (analyze secure_filename save_error url_for D req w)
    as [out w'] eqn:Hrun.
  rewrite (analyze_accepted secure_filename save_error url_for D req f t w
             Hacc) in Hrun.
  cbn zeta in Hrun. rewrite Hsave, Hext in Hrun.
  unfold try_except, dispatch in Hrun. rewrite Hpdf, Himage in Hrun.
  cbn [String.eqb Ascii.eqb Bool.eqb] in Hrun.
  assert (Hd1 : detector (after_save w f
                  (PyStr.os_path_join UPLOAD_FOLDER
                     (secure_filename (filename f)))) = Some self)
    by exact Hd.
  run_branch Hrun Hd1.
  all: eexists; eexists; eexists; (split; [reflexivity|]).
  all: split;
    [unfold added;
     cbn [trace after_call after_save log fs_write raised_event];
     rewrite <- ?app_assoc; reflexivity|].
  all: cbn [app In]; repeat split; auto; try discriminate.
  - right. right. eexists. split; reflexivity.
  - right. left. eexists. split; [reflexivity | exact Hcall].
Qed.

End PdfDispatch.

(** An accepted upload whose sanitised name has no dot never reaches the
    [try] block: the request ends in the exception of the write, or in the
    [IndexError] of reading the extension. *)
Lemma handle_accepted_no_dot
    (secure_filename : string -> string)
    (save_error : filesystem -> string -> string -> option (exn * filesystem))
    (url_for : string -> string -> string) (D : DetectorClass)
    (req : request) (f : FileStorage) (t : string) (w : world) :
  accepted req f t ->
  nth_error (PyStr.rsplit1 "." (secure_filename (filename f))) 1 = None ->
  let up := PyStr.os_path_join UPLOAD_FOLDER (secure_filename (filename f)) in
  handle secure_filename save_error url_for D (PostAnalyze req) w
  = match save_error (fs w) up (stream f) with
    | None => (Unhandled IndexError, after_save w f up)
    | Some (e, files) => (Unhandled e, after_failed_save w files)
    end.
Proof.
  intros Hacc Hext. cbn zeta. cbn [handle].
  rewrite (analyze_accepted secure_filename save_error url_for D req f t w
             Hacc).
  cbn zeta. rewrite Hext.
  destruct (save_error _ _ _) as [[e files]|]; reflexivity.
Qed.

(** C5.  The upload [!.pdf] passes the allow-list with the extension
    [pdf]; sanitising the name leaves [pdf], without a dot, and reading
    the extension of that name raises [IndexError] before the [try] block:
    with the analysis type ['image'] the request ends in an unhandled
    exception, not in the message meant for PDFs.  Should writing the
    upload fail, the exception of the write is the one left unhandled. *)
Theorem pdf_image_upload_unhandled :
  allowed_file "!.pdf" = true /\
  nth_error (PyStr.rsplit1 "." "!.pdf") 1 = Some "pdf" /\
  Werkzeug.secure_filename "!.pdf" = "pdf" /\
  forall (save_error :
            filesystem -> string -> string -> option (exn * filesystem))
         (D : DetectorClass) (w : world),
    handle Werkzeug.secure_filename save_error flask_url_for D
      (PostAnalyze (Samples.upload "!.pdf" "image")) w
    = match save_error (fs w) "static/uploads/pdf" "data" with
      | None =>
          (Unhandled IndexError,
           after_save w (mkFile "!.pdf" "data") "static/uploads/pdf")
      | Some (e, files) => (Unhandled e, after_failed_save w files)
      end.
Proof.
  repeat split. intros save_error D w.
  apply (handle_accepted_no_dot Werkzeug.secure_filename save_error
           flask_url_for D (Samples.upload "!.pdf" "image")
           (mkFile "!.pdf" "data") "image" w).
  - repeat split.
  - reflexivity.
Qed.

(** C9.  The same upload with the analysis type ['foo']: the extension is
    [pdf] and the type is neither empty nor ['image'], yet the PDF analysis
    does not run; the request ends in the unhandled [IndexError], or in
    the unhandled exception of a failed write, and the engine has not been
    called. *)
Theorem pdf_other_type_upload_unhandled :
  allowed_file "!.pdf" = true /\
  nth_error (PyStr.rsplit1 "." "!.pdf") 1 = Some "pdf" /\
  forall (save_error :
            filesystem -> string -> string -> option (exn * filesystem))
         (D : DetectorClass) (w : world),
    handle Werkzeug.secure_filename save_error flask_url_for D
      (PostAnalyze (Samples.upload "!.pdf" "foo")) w
    = match save_error (fs w) "static/uploads/pdf" "data" with
      | None =>
          (Unhandled IndexError,
           after_save w (mkFile "!.pdf" "data") "static/uploads/pdf")
      | Some (e, files) => (Unhandled e, after_failed_save w files)
      end /\
    engine_untouched [EvSave "static/uploads/pdf"] /\
    (forall evs,
       added w
         (snd (handle Werkzeug.secure_filename save_error flask_url_for D
                 (PostAnalyze (Samples.upload "!.pdf" "foo")) w)) evs ->
       engine_untouched evs).
Proof.
  split; [reflexivity|]. split; [reflexivity|]. intros save_error D w.
  assert (Hrun :
    handle Werkzeug.secure_filename save_error flask_url_for D
      (PostAnalyze (Samples.upload "!.pdf" "foo")) w
    = match save_error (fs w) "static/uploads/pdf" "data" with
      | None =>
          (Unhandled IndexError,
           after_save w (mkFile "!.pdf" "data") "static/uploads/pdf")
      | Some (e, files) => (Unhandled e, after_failed_save w files)
      end).
  { apply (handle_accepted_no_dot Werkzeug.secure_filename save_error
             flask_url_for D (Samples.upload "!.pdf" "foo")
             (mkFile "!.pdf" "data") "foo" w).
    - repeat split.
    - reflexivity. }
  split; [exact Hrun|]. split; [reflexivity|].
  intros evs Hadd. rewrite Hrun in Hadd.
  destruct (save_error (fs w) "static/uploads/pdf" "data") as [[e files]|];
    cbn [snd] in Hadd.
  - rewrite (added_unique _ _ _ _ Hadd (added_failed_save w files)).
    reflexivity.
  - rewrite (added_unique _ _ _ _ Hadd (added_save w _ _)). reflexivity.
Qed.

(** ** The ELA engine of the specification *)

Section DocumentForgery.

Variables quality scale pixel_threshold : Z.
Variable T : Q.
Variable decode : string -> option EngineSpec.image.
Variable recompress : Z -> EngineSpec.image -> EngineSpec.image.

Lemma exceeding_le_length (errs : list Z) :
  (EngineSpec.exceeding pixel_threshold errs <= List.length errs)%nat.
Proof. unfold EngineSpec.exceeding. apply filter_length_le. Qed.

Lemma error_map_length (img : EngineSpec.image) :
  (List.length (EngineSpec.error_map quality scale recompress img)
   <= List.length img)%nat.
Proof.
  unfold EngineSpec.error_map. rewrite length_map, length_combine.
  apply Nat.le_min_l.
Qed.

(** The score of a non-empty image is a percentage. *)
Lemma ela_score_range (px : Z) (img : EngineSpec.image) :
  (0 <= EngineSpec.ela_score quality scale pixel_threshold recompress
          (px :: img) <= 100)%Q.
Proof.
  unfold EngineSpec.ela_score, Qle. cbn [Qnum Qden].
  set (errs := EngineSpec.error_map quality scale recompress (px :: img)).
  pose proof (exceeding_le_length errs) as H1.
  pose proof (error_map_length (px :: img)) as H2. fold errs in H2.
  assert (Hden : Z.pos (Pos.of_nat (List.length (px :: img)))
                 = Z.of_nat (List.length (px :: img))).
  { rewrite <- positive_nat_Z, Nat2Pos.id; [reflexivity|discriminate]. }
  rewrite Hden. split; lia.
Qed.

Lemma verdict_of_threshold (score : Q) :
  EngineSpec.verdict_of T score = EngineSpec.SuspiciousForgery <->
  (T < score)%Q.
Proof.
  unfold EngineSpec.verdict_of.
  destruct (Qle_bool score T) eqn:E.
  - apply Qle_bool_iff in E. split; [discriminate|].
    intros Hlt. exfalso. exact (Qlt_not_le _ _ Hlt E).
  - split; [|reflexivity]. intros _. apply Qnot_le_lt. intros Hle.
    apply Qle_bool_iff in Hle. congruence.
Qed.

(** C2.  For every valid document, [analyzeDocumentForgery] returns a score
    between 0 and 100, and its verdict is [SuspiciousForgery] exactly when
    the score is greater than the one threshold [T] the analysis is
    configured with. *)
Theorem document_score_and_verdict (data : string) :
  EngineSpec.valid_document decode data ->
  exists score verdict artifact,
    EngineSpec.analyzeDocumentForgery quality scale pixel_threshold T decode
      recompress data = EngineSpec.Done (score, verdict, artifact) /\
    (0 <= score <= 100)%Q /\
    (verdict = EngineSpec.SuspiciousForgery <-> (T < score)%Q) /\
    (verdict = EngineSpec.LikelyAuthentic <-> (score <= T)%Q).
Proof.
  intros (px & img & Hdec). unfold EngineSpec.analyzeDocumentForgery.
  rewrite Hdec. eexists. eexists. eexists. split; [reflexivity|].
  split; [apply ela_score_range|]. split; [apply verdict_of_threshold|].
  unfold EngineSpec.verdict_of.
  destruct (Qle_bool _ T) eqn:E.
  - apply Qle_bool_iff in E. split; auto.
  - split; [discriminate|]. intros Hle. apply Qle_bool_iff in Hle. congruence.
Qed.

End DocumentForgery.

Lemma document_score_and_verdict_witness :
  let decode := fun _ : string => Some [12; 200; 31; 64] in
  let recompress := fun (q : Z) (img : EngineSpec.image) =>
                      map (fun x => x - x mod 16) img in
  EngineSpec.valid_document decode "scan" /\
  exists score verdict artifact,
    EngineSpec.analyzeDocumentForgery 90 15 100 (25 # 1) decode recompress
      "scan" = EngineSpec.Done (score, verdict, artifact) /\
    (0 <= score <= 100)%Q /\
    (verdict = EngineSpec.SuspiciousForgery <-> (25 # 1 < score)%Q) /\
    (verdict = EngineSpec.LikelyAuthentic <-> (score <= 25 # 1)%Q).
Proof.
  cbv zeta.
  assert (Hvalid : EngineSpec.valid_document
                     (fun _ : string => Some [12; 200; 31; 64]) "scan").
  { exists 12, [200; 31; 64]. reflexivity. }
  split; [exact Hvalid|].
  exact (document_score_and_verdict 90 15 100 (25 # 1) _ _ "scan" Hvalid).
Defined.

(** ** The PDF orchestrator of the specification *)

Section PdfForgery.

Variable page : Type.
Variable open_pdf : string -> option (list page).
Variable rasterize : page -> EngineSpec.engine_result EngineSpec.image.
Variable ela :
  EngineSpec.image ->
  EngineSpec.engine_result (Q * EngineSpec.forgery_verdict * list Z).

(** Pages are numbered consecutively from the first number on. *)
Lemma analyze_pages_numbers (pages : list page) (n : nat) :
  map EngineSpec.pageNumber
    (EngineSpec.analyze_pages page rasterize ela (Z.of_nat n) pages)
  = map Z.of_nat (seq n (List.length pages)).
Proof.
  revert n. induction pages as [|p ps IH]; intros n; [reflexivity|].
  cbn [EngineSpec.analyze_pages map seq List.length EngineSpec.pageNumber].
  f_equal. replace (Z.of_nat n + 1) with (Z.of_nat (S n)) by lia. apply IH.
Qed.

(** The k-th result is the analysis of the k-th page. *)
Lemma analyze_pages_outcomes (pages : list page) (i : Z) :
  map EngineSpec.outcome (EngineSpec.analyze_pages page rasterize ela i pages)
  = map (EngineSpec.analyze_page page rasterize ela) pages.
Proof.
  revert i. induction pages as [|p ps IH]; intros i; [reflexivity|].
  cbn [EngineSpec.analyze_pages map EngineSpec.outcome]. now rewrite IH.
Qed.

Lemma analyze_pages_length (pages : list page) (i : Z) :
  List.length (EngineSpec.analyze_pages page rasterize ela i pages)
  = List.length pages.
Proof.
  revert i. induction pages as [|p ps IH]; intros i; [reflexivity|].
  cbn [EngineSpec.analyze_pages List.length]. now rewrite IH.
Qed.

(** One page that can be analysed keeps the document from failing. *)
Lemma one_good_page (pages : list page) (i : Z) (p : page) :
  In p pages ->
  match EngineSpec.analyze_page page rasterize ela p with
  | EngineSpec.Analyzed _ _ _ _ => True
  | EngineSpec.PageFailed _ => False
  end ->
  forallb EngineSpec.page_failed
    (EngineSpec.analyze_pages page rasterize ela i pages) = false.
Proof.
  revert i. induction pages as [|q qs IH]; intros i Hin Hgood; [destruct Hin|].
  cbn [EngineSpec.analyze_pages forallb].
  destruct Hin as [->|Hin].
  - unfold EngineSpec.page_failed at 1. cbn [EngineSpec.outcome].
    destruct (EngineSpec.analyze_page page rasterize ela p);
      [reflexivity | destruct Hgood].
  - rewrite (IH (i + 1) Hin Hgood). apply andb_false_r.
Qed.

(** C3.  For every valid PDF with N pages, [analyzePdfForgery] returns
    exactly N results, numbered 1, 2, ..., N in that order, the k-th being
    the analysis of the k-th physical page; a PDF with no page gives the
    empty sequence and not an error. *)
Theorem pdf_pages_in_order (data : string) (pages : list page) :
  EngineSpec.valid_pdf page open_pdf rasterize ela data pages ->
  exists results,
    EngineSpec.analyzePdfForgery page open_pdf rasterize ela data
      = EngineSpec.Done results /\
    List.length results = List.length pages /\
    map EngineSpec.pageNumber results
      = map Z.of_nat (seq 1 (List.length pages)) /\
    map EngineSpec.outcome results
      = map (EngineSpec.analyze_page page rasterize ela) pages /\
    (pages = [] -> results = []).
Proof.
  intros (Hopen & Hvalid). unfold EngineSpec.analyzePdfForgery.
  rewrite Hopen.
  destruct pages as [|p0 ps].
  - exists []. repeat split.
  - destruct Hvalid as [Hnil | (p & Hin & Hgood)]; [discriminate|].
    exists (EngineSpec.analyze_pages page rasterize ela 1 (p0 :: ps)).
    pose proof (one_good_page (p0 :: ps) 1 p Hin Hgood) as Hsome.
    repeat split.
    + cbn [EngineSpec.analyze_pages] in *. now rewrite Hsome.
    + apply analyze_pages_length.
    + apply (analyze_pages_numbers (p0 :: ps) 1).
    + apply analyze_pages_outcomes.
    + discriminate.
Qed.

End PdfForgery.

Lemma pdf_pages_in_order_witness :
  let open_pdf := fun _ : string => Some [10; 20; 30]%nat in
  let rasterize := fun n : nat => EngineSpec.Done [Z.of_nat n] in
  let ela := fun img : EngineSpec.image =>
               EngineSpec.Done (0%Q, EngineSpec.LikelyAuthentic, img) in
  EngineSpec.valid_pdf nat open_pdf rasterize ela "report" [10; 20; 30]%nat /\
  exists results,
    EngineSpec.analyzePdfForgery nat open_pdf rasterize ela "report"
      = EngineSpec.Done results /\
    List.length results = 3%nat /\
    map EngineSpec.pageNumber results = [1; 2; 3] /\
    map EngineSpec.outcome results
      = map (EngineSpec.analyze_page nat rasterize ela) [10; 20; 30]%nat /\
    ([10; 20; 30]%nat = [] -> results = []).
Proof.
  cbv zeta.
  assert (Hvalid : EngineSpec.valid_pdf nat
                     (fun _ : string => Some [10; 20; 30]%nat)
                     (fun n : nat => EngineSpec.Done [Z.of_nat n])
                     (fun img : EngineSpec.image =>
                        EngineSpec.Done (0%Q, EngineSpec.LikelyAuthentic, img))
                     "report" [10; 20; 30]%nat).
  { split; [reflexivity|]. right. exists 10%nat. split; [left; reflexivity|].
    exact I. }
  split; [exact Hvalid|].
  exact (pdf_pages_in_order nat _ _ _ "report" [10; 20; 30]%nat Hvalid).
Defined.

(** * Further properties of the handler *)

(** ** File names and extensions *)

Lemma contains_app_sep (sep : ascii) (a b : string) :
  PyStr.contains sep (a ++ String sep b) = true.
Proof.
  induction a as [|c a IH]; cbn [append PyStr.contains].
  - now rewrite Ascii.eqb_refl.
  - destruct (Ascii.eqb sep c); [reflexivity | exact IH].
Qed.

(** Splitting at the last separator undoes gluing two parts with it, when
    the second part has none. *)
Lemma rsplit_last_app (sep : ascii) (a b : string) :
  PyStr.contains sep b = false ->
  PyStr.rsplit_last sep (a ++ String sep b) = Some (a, b).
Proof.
  intros Hb.
  assert (Hnone : PyStr.rsplit_last sep b = None).
  { clear a. induction b as [|c b IH]; [reflexivity|].
    cbn [PyStr.contains] in Hb. cbn [PyStr.rsplit_last].
    destruct (Ascii.eqb sep c) eqn:E; [discriminate|].
    rewrite (IH Hb). rewrite Ascii.eqb_sym, E. reflexivity. }
  induction a as [|c a IH]; cbn [append PyStr.rsplit_last].
  - now rewrite Hnone, Ascii.eqb_refl.
  - now rewrite IH.
Qed.

(** What the split gives back are the two parts around the last
    separator. *)
Lemma rsplit_last_inv (sep : ascii) (s a b : string) :
  PyStr.rsplit_last sep s = Some (a, b) ->
  s = a ++ String sep b /\ PyStr.contains sep b = false.
Proof.
  revert a b. induction s as [|c s IH]; intros a b H; [discriminate|].
  cbn [PyStr.rsplit_last] in H.
  destruct (PyStr.rsplit_last sep s) as [[a' b']|] eqn:Hs.
  - injection H as <- <-. destruct (IH a' b' eq_refl) as [-> Hb].
    split; [reflexivity | exact Hb].
  - destruct (Ascii.eqb c sep) eqn:E; [|discriminate].
    injection H as <- <-. apply Ascii.eqb_eq in E. subst c.
    split; [reflexivity|].
    clear IH. induction s as [|d s IH]; [reflexivity|].
    cbn [PyStr.rsplit_last] in Hs. cbn [PyStr.contains].
    destruct (PyStr.rsplit_last sep s) as [[? ?]|]; [discriminate|].
    destruct (Ascii.eqb d sep) eqn:E; [discriminate|].
    rewrite Ascii.eqb_sym, E. now apply IH.
Qed.

(** A string has a last separator exactly when it contains one. *)
Lemma rsplit_last_none (sep : ascii) (s : string) :
  PyStr.rsplit_last sep s = None <-> PyStr.contains sep s = false.
Proof.
  induction s as [|c s IH]; [split; reflexivity|].
  cbn [PyStr.rsplit_last PyStr.contains]. rewrite (Ascii.eqb_sym sep c).
  destruct (PyStr.rsplit_last sep s) as [[a b]|].
  - split; [discriminate|]. intros H.
    destruct (Ascii.eqb c sep); [discriminate|].
    apply IH in H. discriminate.
  - destruct (Ascii.eqb c sep); [split; discriminate|].
    split; intros _; [now apply IH | reflexivity].
Qed.

(** [s.rsplit('.', 1)] has a second element exactly when [s] has a dot. *)
Lemma extension_none (s : string) :
  nth_error (PyStr.rsplit1 "." s) 1 = None <-> PyStr.contains "." s = false.
Proof.
  unfold PyStr.rsplit1. rewrite <- rsplit_last_none.
  destruct (PyStr.rsplit_last "." s) as [[a b]|]; cbn; split;
    try reflexivity; discriminate.
Qed.

(** X1.  [allowed_file] accepts exactly the names made of any stem, a dot
    and a dot-free extension that is, up to case, one of png, jpg, jpeg,
    pdf: only what follows the last dot counts, and a name without a dot
    is refused. *)
Theorem allowed_file_iff_last_extension (name : string) :
  allowed_file name = true <->
  exists stem ext,
    name = stem ++ "." ++ ext /\
    PyStr.contains "." ext = false /\
    In (PyStr.lower ext) ALLOWED_EXTENSIONS.
Proof.
  unfold allowed_file, in_set, PyStr.rsplit1. split.
  - intros H. apply andb_true_iff in H. destruct H as [_ H].
    destruct (PyStr.rsplit_last "." name) as [[stem ext]|] eqn:Hs;
      [|discriminate].
    cbn [nth_error] in H. apply rsplit_last_inv in Hs. destruct Hs as [-> Hno].
    exists stem, ext. repeat split; trivial.
    apply existsb_exists in H. destruct H as (x & Hin & Hx).
    apply String.eqb_eq in Hx. now subst x.
  - intros (stem & ext & -> & Hno & Hin).
    change (stem ++ "." ++ ext) with (stem ++ String "." ext).
    rewrite contains_app_sep, (rsplit_last_app _ _ _ Hno). cbn [nth_error andb].
    apply existsb_exists. exists (PyStr.lower ext). split; [exact Hin|].
    apply String.eqb_refl.
Qed.
(** ** Exceptions that leave the handler *)

Section Escapes.

Variable secure_filename : string -> string.
Variable save_error :
  filesystem -> string -> string -> option (exn * filesystem).
Variable url_for : string -> string -> string.
Variable D : DetectorClass.

(** An engine method that ends in a [BaseException] takes the request with
    it: the [except Exception] clause does not apply. *)
Lemma abort_runs (req : request) (f : FileStorage) (t ext : string)
    (op : engine_op) (self : obj_id) (b : base_exn) (w : world) :
  accepted req f t ->
  let up := PyStr.os_path_join UPLOAD_FOLDER (secure_filename (filename f)) in
  save_error (fs w) up (stream f) = None ->
  nth_error (PyStr.rsplit1 "." (secure_filename (filename f))) 1 = Some ext ->
  selects ext t op ->
  detector w = Some self ->
  engine_aborts D op (fs (after_save w f up)) up PROCESSED_FOLDER b ->
  fst (analyze secure_filename save_error url_for D req w) = Abort b.
Proof.
  intros Hacc up Hsave Hext Hsel Hd Hab. subst up.
  rewrite (analyze_accepted secure_filename save_error url_for D req f t w
             Hacc).
  cbn zeta. rewrite Hsave, Hext. unfold try_except, dispatch.
  assert (Hd1 : detector (after_save w f
                  (PyStr.os_path_join UPLOAD_FOLDER
                     (secure_filename (filename f)))) = Some self)
    by exact Hd.
  destruct op; cbn [selects engine_aborts] in Hsel, Hab;
    destruct Hsel as [H1 H2].
  - subst t. rewrite H1. cbn [String.eqb Ascii.eqb Bool.eqb].
    rewrite (image_branch_run _ _ _ _ _ _ Hd1). cbn zeta. rewrite Hab.
    reflexivity.
  - subst t. rewrite H1. cbn [String.eqb Ascii.eqb Bool.eqb].
    rewrite (document_branch_run _ _ _ _ _ _ Hd1). cbn zeta. rewrite Hab.
    reflexivity.
  - rewrite H1, H2. cbn [String.eqb Ascii.eqb Bool.eqb].
    rewrite (pdf_branch_run _ _ _ _ _ _ Hd1). cbn zeta. rewrite Hab.
    reflexivity.
Qed.

(** X2.  Two exceptions of class [Exception] can leave [analyze], both
    raised before the [try] block and only for an accepted upload: the one
    [file.save] raises, after which nothing has been logged, and the
    [IndexError] of reading the extension of a sanitised name without a
    dot, after which the upload has been stored.  Everything raised inside
    the [try] block is caught, unless it is a [BaseException] that is no
    [Exception]: that one leaves the handler exactly when the engine
    method the request selects ends in it. *)
Theorem escaping_exceptions (req : request) (w : world) :
  (forall e w',
     analyze secure_filename save_error url_for D req w = (Raise e, w') <->
     exists f t,
       accepted req f t /\
       let up := PyStr.os_path_join UPLOAD_FOLDER
                   (secure_filename (filename f)) in
       ((exists files,
           save_error (fs w) up (stream f) = Some (e, files) /\
           w' = after_failed_save w files)
        \/
        (save_error (fs w) up (stream f) = None /\
         PyStr.contains "." (secure_filename (filename f)) = false /\
         e = IndexError /\
         w' = after_save w f up)))
  /\
  (forall b,
     fst (analyze secure_filename save_error url_for D req w) = Abort b <->
     exists f t ext op self,
       accepted req f t /\
       let up := PyStr.os_path_join UPLOAD_FOLDER
                   (secure_filename (filename f)) in
       save_error (fs w) up (stream f) = None /\
       nth_error (PyStr.rsplit1 "." (secure_filename (filename f))) 1
         = Some ext /\
       selects ext t op /\
       detector w = Some self /\
       engine_aborts D op (fs (after_save w f up)) up PROCESSED_FOLDER b).
Proof.
  split.
  - intros e w'. split.
    + intros Hrun.
      destruct (request_cases req) as [Hbad | (f & t & Hacc)].
      * destruct (analyze_rejected secure_filename save_error url_for D req
                    w Hbad)
          as (msg & _ & Hrej).
        rewrite Hrej in Hrun. discriminate.
      * exists f, t. split; [exact Hacc|]. cbn zeta.
        destruct (accepted_outcomes secure_filename save_error url_for D req
                    f t w w' _ Hacc Hrun)
          as [(e0 & files & Hsave & He & ->) | (Hsave & Hrest)].
        { left. exists files. injection He as ->. auto. }
        right. split; [exact Hsave|].
        destruct Hrest as [(He & Hext & Hw) | (ext & _ & Hrest)].
        { apply extension_none in Hext. injection He as ->. auto. }
        exfalso.
        destruct Hrest as [(H & _) | [(H & _) | (op & _ & Hrest)]];
          try discriminate.
        destruct Hrest as [(_ & H & _) | (self & _ & Hrest)];
          try discriminate.
        destruct Hrest as [(? & _ & H & _)
                          | [(? & _ & H & _)
                            | [(? & _ & H & _) | (? & H & _)]]];
          discriminate.
    + intros (f & t & Hacc & Hrest). cbn zeta in Hrest.
      rewrite (analyze_accepted secure_filename save_error url_for D req f t
                 w Hacc).
      cbn zeta.
      destruct Hrest as [(files & Hsave & ->) | (Hsave & Hdot & -> & ->)];
        rewrite Hsave; [reflexivity|].
      apply extension_none in Hdot. now rewrite Hdot.
  - intros b. split.
    + intros Hrun.
      destruct (analyze secure_filename save_error url_for D req w)
        as [out w'] eqn:Hrun'.
      cbn [fst] in Hrun. subst out.
      destruct (request_cases req) as [Hbad | (f & t & Hacc)].
      * destruct (analyze_rejected secure_filename save_error url_for D req
                    w Hbad)
          as (msg & _ & Hrej).
        rewrite Hrej in Hrun'. discriminate.
      * exists f, t.
        destruct (accepted_outcomes secure_filename save_error url_for D req
                    f t w w' _ Hacc Hrun')
          as [(e0 & files & _ & H & _) | (Hsave & Hrest)]; [discriminate|].
        destruct Hrest as [(H & _) | (ext & Hext & Hrest)]; [discriminate|].
        destruct Hrest as [(H & _) | [(H & _) | (op & Hsel & Hrest)]];
          try discriminate.
        destruct Hrest as [(_ & H & _) | (self & Hd & Hrest)];
          try discriminate.
        destruct Hrest as [(? & _ & H & _)
                          | [(b' & Hab & H & _)
                            | [(? & _ & H & _) | (? & H & _)]]];
          try discriminate.
        injection H as <-.
        exists ext, op, self. cbn zeta. auto 7.
    + intros (f & t & ext & op & self & Hacc & Hrest). cbn zeta in Hrest.
      destruct Hrest as (Hsave & Hext & Hsel & Hd & Hab).
      rewrite (abort_runs req f t ext op self b w Hacc Hsave Hext Hsel Hd
                 Hab).
      reflexivity.
Qed.

(** X3.  What [analyze] leaves on disk follows the checks and the write.
    A request that is turned down leaves the world as it was.  An accepted
    one tries to write its file once, under the upload folder and the
    sanitised name, before anything else happens: when the write raises,
    that exception is the result and nothing has been logged; when it goes
    through, the save heads the trace of the request and no other save
    follows, whatever the answer turns out to be. *)
Theorem upload_stored_when_accepted_and_written (req : request) (w : world) :
  let out := fst (analyze secure_filename save_error url_for D req w) in
  let w' := snd (analyze secure_filename save_error url_for D req w) in
  (w' = w /\ ~ (exists f t, accepted req f t))
  \/
  (exists f t,
     accepted req f t /\
     let up := PyStr.os_path_join UPLOAD_FOLDER
                 (secure_filename (filename f)) in
     ((exists e files,
         save_error (fs w) up (stream f) = Some (e, files) /\
         out = Raise e /\
         w' = after_failed_save w files /\
         added w w' [])
      \/
      (save_error (fs w) up (stream f) = None /\
       exists tail,
         added w w' (EvSave up :: tail) /\
         existsb is_save tail = false))).
Proof.
  cbn zeta.
  destruct (analyze secure_filename save_error url_for D req w)
    as [out w'] eqn:Hrun.
  cbn [fst snd].
  destruct (request_cases req) as [Hbad | (f & t & Hacc)].
  - left.
    destruct (analyze_rejected secure_filename save_error url_for D req w
                Hbad)
      as (msg & _ & Hrej).
    rewrite Hrej in Hrun. injection Hrun as <- <-. split; [reflexivity|].
    intros (f & t & Hacc). exact (accepted_not_rejected req f t Hacc Hbad).
  - right. exists f, t. split; [exact Hacc|].
    destruct (accepted_outcomes secure_filename save_error url_for D req f t
                w w' out Hacc Hrun)
      as [(e & files & Hsave & -> & ->) | (Hsave & Hrest)].
    { left. exists e, files. repeat split; trivial.
      apply added_failed_save. }
    right. split; [exact Hsave|].
    destruct Hrest as [(_ & _ & ->) | (ext & _ & Hrest)].
    { exists []. split; reflexivity. }
    destruct Hrest as [(_ & _ & _ & ->) | [(_ & _ & _ & _ & ->)
                                          | (op & _ & Hrest)]].
    { exists []. split; reflexivity. }
    { exists []. split; reflexivity. }
    destruct Hrest as [(_ & _ & Hadd) | (self & _ & Hrest)].
    { eexists. split; [exact Hadd | reflexivity]. }
    destruct Hrest as [(? & _ & _ & Hadd)
                      | [(? & _ & _ & Hadd)
                        | [(? & _ & _ & Hadd) | (? & _ & _ & _ & _ & Hadd)]]];
      eexists; (split; [exact Hadd | reflexivity]).
Qed.

End Escapes.

(** ** Engine calls, messages and status codes *)

Section EngineCalls.

Variable secure_filename : string -> string.
Variable save_error :
  filesystem -> string -> string -> option (exn * filesystem).
Variable url_for : string -> string -> string.
Variable D : DetectorClass.

(** X4.  A request calls the engine at most once, and only on the upload
    it has just stored: when the trace of a request has an engine call,
    the trace starts with the save of the upload, the call follows with
    that same path and the processed folder as arguments and the global
    detector as receiver, and neither a save nor a call comes after. *)
Theorem engine_called_once_on_stored_upload (req : request) (w w' : world)
    (out : result response) (evs : list event) :
  analyze secure_filename save_error url_for D req w = (out, w') ->
  added w w' evs ->
  existsb is_engine_call evs = true ->
  exists f t self op post,
    accepted req f t /\
    detector w = Some self /\
    evs = EvSave (PyStr.os_path_join UPLOAD_FOLDER
                    (secure_filename (filename f)))
          :: EvEngine self op
               (PyStr.os_path_join UPLOAD_FOLDER
                  (secure_filename (filename f)))
               PROCESSED_FOLDER
          :: post /\
    engine_untouched post /\
    existsb is_save post = false.
Proof.
  intros Hrun Hadd Hcall.
  destruct (run_cases secure_filename save_error url_for D req w w' out evs
              Hrun Hadd)
    as [(-> & _) | (f & t & Hacc & Hrest)]; [discriminate|].
  cbn zeta in Hrest.
  destruct Hrest as [(? & ? & _ & _ & _ & ->) | (_ & Hrest)]; [discriminate|].
  destruct Hrest as [(-> & _) | (ext & op & _ & _ & Hrest)]; [discriminate|].
  destruct Hrest as [(_ & _ & ->) | (self & Hd & Hrest)]; [discriminate|].
  exists f, t, self, op.
  destruct Hrest as [(e & _ & _ & ->)
                    | [(b & _ & _ & ->)
                      | [(e & _ & _ & ->) | (r & _ & _ & _ & _ & ->)]]];
    eexists; (split; [exact Hacc|]); (split; [exact Hd|]);
    (split; [reflexivity|]); split; reflexivity.
Qed.

(** X5.  Which engine method runs follows the extension of the sanitised
    name first and the analysis type second: PDF analysis only for a [pdf]
    extension and a type other than ['image'], the deepfake classifier
    only for the type ['image'] on a file that is not a PDF, document
    analysis only for the type ['document'] on a file that is not a PDF. *)
Theorem engine_method_follows_dispatch (req : request) (w w' : world)
    (out : result response) (evs : list event) (self : obj_id)
    (op : engine_op) (path out_dir : string) :
  analyze secure_filename save_error url_for D req w = (out, w') ->
  added w w' evs ->
  In (EvEngine self op path out_dir) evs ->
  exists f t ext,
    accepted req f t /\
    nth_error (PyStr.rsplit1 "." (secure_filename (filename f))) 1
      = Some ext /\
    selects ext t op.
Proof.
  intros Hrun Hadd Hin.
  destruct (run_cases secure_filename save_error url_for D req w w' out evs
              Hrun Hadd)
    as [(-> & _) | (f & t & Hacc & Hrest)]; [destruct Hin|].
  cbn zeta in Hrest.
  destruct Hrest as [(? & ? & _ & _ & _ & ->) | (_ & Hrest)];
    [destruct Hin|].
  destruct Hrest as [(-> & _) | (ext & op' & Hext & Hsel & Hrest)].
  { destruct Hin as [Hin|[]]; discriminate. }
  exists f, t, ext. split; [exact Hacc|]. split; [exact Hext|].
  assert (op' = op); [|now subst].
  destruct Hrest as [(_ & _ & ->) | (self' & _ & Hrest)].
  { cbn [In] in Hin. destruct Hin as [Hin|[Hin|[]]]; discriminate. }
  destruct Hrest as [(e & _ & _ & ->)
                    | [(b & _ & _ & ->)
                      | [(e & _ & _ & ->) | (r & _ & _ & _ & _ & ->)]]];
    cbn [In] in Hin;
    repeat match type of Hin with
      | _ \/ _ => destruct Hin as [Hin|Hin]
      | False => destruct Hin
      end;
    try discriminate; now injection Hin.
Qed.

(** X6.  The message "DeepFake analysis is for images (JPG, PNG), not
    PDFs." is the answer exactly when an accepted upload has the type
    ['image'], writing it went through, and its sanitised name has the
    extension [pdf], in any letter case; the upload has been stored by
    then. *)
Theorem pdf_image_message_iff (req : request) (w w' : world) :
  analyze secure_filename save_error url_for D req w
    = (Ok (error_response msg_pdf_not_image 400), w') <->
  exists f ext,
    accepted req f "image" /\
    let up := PyStr.os_path_join UPLOAD_FOLDER
                (secure_filename (filename f)) in
    save_error (fs w) up (stream f) = None /\
    nth_error (PyStr.rsplit1 "." (secure_filename (filename f))) 1
      = Some ext /\
    PyStr.lower ext = "pdf" /\
    w' = after_save w f up.
Proof.
  split.
  - intros Hrun.
    destruct (request_cases req) as [Hbad | (f & t & Hacc)].
    + destruct (analyze_rejected secure_filename save_error url_for D req w
                  Hbad)
        as (msg & Hin & Hrej).
      rewrite Hrej in Hrun. injection Hrun as -> _.
      cbn [validation_messages In] in Hin.
      destruct Hin as [H|[H|[H|[H|[]]]]]; discriminate.
    + destruct (accepted_outcomes secure_filename save_error url_for D req f
                  t w w' _ Hacc Hrun)
        as [(? & ? & _ & H & _) | (Hsave & Hrest)]; [discriminate|].
      destruct Hrest as [(H & _) | (ext & Hext & Hrest)]; [discriminate|].
      destruct Hrest as [(_ & Hpdf & -> & ->) | [(H & _) | (op & _ & Hrest)]];
        [exists f, ext; cbn zeta; auto | discriminate |].
      exfalso.
      destruct Hrest as [(_ & H & _) | (self & _ & Hrest)];
        [discriminate|].
      destruct Hrest as [(? & _ & H & _)
                        | [(? & _ & H & _)
                          | [(? & _ & H & _) | (? & H & Hst & _)]]];
        try discriminate.
      injection H as <-. discriminate Hst.
  - intros (f & ext & Hacc & Hrest). cbn zeta in Hrest.
    destruct Hrest as (Hsave & Hext & Hpdf & ->).
    exact (proj1 (pdf_image_rejected secure_filename save_error url_for D req
                    f ext w Hacc Hsave Hext Hpdf)).
Qed.

(** X7.  The message "Invalid analysis type specified." is the answer
    exactly when writing an accepted upload went through, the upload is
    not a PDF by the extension of its sanitised name, and its type is
    neither ['image'] nor ['document']; it is never the answer for a PDF,
    and the upload has been stored by then. *)
Theorem invalid_type_message_iff (req : request) (w w' : world) :
  analyze secure_filename save_error url_for D req w
    = (Ok (error_response msg_invalid_analysis_type 400), w') <->
  exists f t ext,
    accepted req f t /\
    let up := PyStr.os_path_join UPLOAD_FOLDER
                (secure_filename (filename f)) in
    save_error (fs w) up (stream f) = None /\
    nth_error (PyStr.rsplit1 "." (secure_filename (filename f))) 1
      = Some ext /\
    PyStr.lower ext <> "pdf" /\ t <> "image" /\ t <> "document" /\
    w' = after_save w f up.
Proof.
  split.
  - intros Hrun.
    destruct (request_cases req) as [Hbad | (f & t & Hacc)].
    + destruct (analyze_rejected secure_filename save_error url_for D req w
                  Hbad)
        as (msg & Hin & Hrej).
      rewrite Hrej in Hrun. injection Hrun as -> _.
      cbn [validation_messages In] in Hin.
      destruct Hin as [H|[H|[H|[H|[]]]]]; discriminate.
    + destruct (accepted_outcomes secure_filename save_error url_for D req f
                  t w w' _ Hacc Hrun)
        as [(? & ? & _ & H & _) | (Hsave & Hrest)]; [discriminate|].
      destruct Hrest as [(H & _) | (ext & Hext & Hrest)]; [discriminate|].
      destruct Hrest as [(H & _) | [(_ & Hp & Hi & Hd & ->)
                                   | (op & _ & Hrest)]];
        [discriminate | |].
      * exists f, t, ext. apply String.eqb_neq in Hp, Hi, Hd.
        cbn zeta. auto 8.
      * exfalso.
        destruct Hrest as [(_ & H & _) | (self & _ & Hrest)];
          [discriminate|].
        destruct Hrest
          as [(? & _ & H & _)
             | [(? & _ & H & _)
               | [(? & _ & H & _) | (? & H & Hst & _)]]];
          try discriminate.
        injection H as <-. discriminate Hst.
  - intros (f & t & ext & Hacc & Hrest). cbn zeta in Hrest.
    destruct Hrest as (Hsave & Hext & Hp & Hi & Hd & ->).
    rewrite (analyze_accepted secure_filename save_error url_for D req f t w
               Hacc).
    cbn zeta. rewrite Hsave, Hext. unfold try_except, dispatch.
    apply String.eqb_neq in Hp, Hi, Hd. now rewrite Hp, Hi, Hd.
Qed.

(** X8.  The generic internal-error response and the line printed on the
    server go together: a request is answered with it exactly when the
    [except] clause has printed, and a response with status 500 is always
    that one response. *)
Theorem internal_error_iff_logged (req : request) (w w' : world)
    (out : result response) (evs : list event) :
  analyze secure_filename save_error url_for D req w = (out, w') ->
  added w w' evs ->
  (out = Ok internal_error_response <-> existsb is_print evs = true) /\
  (forall resp, out = Ok resp -> status resp = 500 ->
                resp = internal_error_response).
Proof.
  intros Hrun Hadd.
  destruct (run_cases secure_filename save_error url_for D req w w' out evs
              Hrun Hadd)
    as [(-> & _ & (msg & _ & ->) & _) | (f & t & Hacc & Hrest)].
  { split; [split; discriminate|].
    intros resp H Hst. injection H as <-. discriminate Hst. }
  cbn zeta in Hrest.
  destruct Hrest as [(? & ? & _ & -> & _ & ->) | (_ & Hrest)].
  { split; [split; discriminate|]. intros resp H. discriminate H. }
  destruct Hrest as [(-> & _ & Hrest) | (ext & op & _ & _ & Hrest)].
  { destruct Hrest as [(-> & _) | (ext & _ & [(-> & _) | (-> & _)])];
      (split; [split; discriminate|]);
      intros resp H Hst; try discriminate H;
      injection H as <-; discriminate Hst. }
  destruct Hrest as [(_ & -> & ->) | (self & _ & Hrest)].
  { split; [split; reflexivity|]. intros resp H _. now injection H. }
  destruct Hrest as [(e & _ & -> & ->)
                    | [(b & _ & -> & ->)
                      | [(e & _ & -> & ->)
                        | (r & -> & Hst & Hfield & _ & ->)]]].
  - split; [split; reflexivity|]. intros resp H _. now injection H.
  - split; [split; discriminate|]. intros resp H. discriminate H.
  - split; [split; reflexivity|]. intros resp H _. now injection H.
  - split.
    + split; [|discriminate]. intros H. injection H as ->.
      discriminate Hst.
    + intros resp H Hst'. injection H as <-. congruence.
Qed.

(** X9.  Every response of [analyze] has status 200, 400 or 500.  Status
    200 means that one engine call was made and returned and nothing was
    printed, and the response is tagged with the method that ran; status
    400 means that the engine was not called at all. *)
Theorem status_tells_what_ran (req : request) (w w' : world)
    (resp : response) (evs : list event) :
  analyze secure_filename save_error url_for D req w = (Ok resp, w') ->
  added w w' evs ->
  (status resp = 200 /\
   exists f self op,
     files_file req = Some f /\
     field resp "analysis_type" = Some (JStr (tag op)) /\
     evs = [EvSave (PyStr.os_path_join UPLOAD_FOLDER
                      (secure_filename (filename f)));
            EvEngine self op
              (PyStr.os_path_join UPLOAD_FOLDER
                 (secure_filename (filename f)))
              PROCESSED_FOLDER])
  \/
  (status resp = 400 /\ engine_untouched evs /\
   exists msg, resp = error_response msg 400)
  \/
  (status resp = 500 /\ resp = internal_error_response).
Proof.
  intros Hrun Hadd.
  destruct (run_cases secure_filename save_error url_for D req w w' _ evs
              Hrun Hadd)
    as [(-> & _ & (msg & _ & H) & _) | (f & t & Hacc & Hrest)].
  { injection H as ->. right. left. repeat split. now exists msg. }
  cbn zeta in Hrest.
  destruct Hrest as [(? & ? & _ & H & _) | (_ & Hrest)]; [discriminate|].
  destruct Hrest as [(-> & _ & Hrest) | (ext & op & _ & _ & Hrest)].
  { destruct Hrest as [(H & _) | (ext & _ & [(H & _) | (H & _)])];
      try discriminate H; injection H as ->;
      right; left; repeat split; eexists; reflexivity. }
  destruct Hrest as [(_ & H & ->) | (self & _ & Hrest)].
  { injection H as ->. right. right. split; reflexivity. }
  destruct Hrest as [(e & _ & H & ->)
                    | [(b & _ & H & ->)
                      | [(e & _ & H & ->)
                        | (r & H & Hst & Hfield & _ & ->)]]].
  - injection H as ->. right. right. split; reflexivity.
  - discriminate H.
  - injection H as ->. right. right. split; reflexivity.
  - injection H as ->. left. split; [exact Hst|].
    exists f, self, op. split; [exact (proj1 Hacc)|]. split; trivial.
Qed.

End EngineCalls.

Lemma engine_called_once_on_stored_upload_witness :
  exists f t self op post,
    accepted (Samples.upload "scan.png" "document") f t /\
    detector Samples.ready = Some self /\
    [EvSave "static/uploads/scan.png";
     EvEngine 0%nat AnalyzeDocumentForgery "static/uploads/scan.png"
       PROCESSED_FOLDER;
     EvEngineRaised AnalyzeDocumentForgery Samples.decode_error;
     EvPrint "An error occurred during analysis: cannot identify image file"]
    = EvSave (PyStr.os_path_join UPLOAD_FOLDER
                (Werkzeug.secure_filename (filename f)))
      :: EvEngine self op
           (PyStr.os_path_join UPLOAD_FOLDER
              (Werkzeug.secure_filename (filename f)))
           PROCESSED_FOLDER
      :: post /\
    engine_untouched post /\
    existsb is_save post = false.
Proof.
  set (run := analyze Werkzeug.secure_filename posix_save_error flask_url_for
                (Samples.failing Samples.decode_error)
                (Samples.upload "scan.png" "document") Samples.ready).
  apply (engine_called_once_on_stored_upload Werkzeug.secure_filename
           posix_save_error
           flask_url_for (Samples.failing Samples.decode_error)
           (Samples.upload "scan.png" "document") Samples.ready (snd run)
           (fst run)).
  - reflexivity.
  - reflexivity.
  - reflexivity.
Defined.

Lemma engine_method_follows_dispatch_witness :
  exists f t ext,
    accepted (Samples.upload "Report.PDF" "document") f t /\
    nth_error (PyStr.rsplit1 "." (Werkzeug.secure_filename (filename f))) 1
      = Some ext /\
    selects ext t AnalyzePdfForgery.
Proof.
  set (run := analyze Werkzeug.secure_filename posix_save_error flask_url_for
                (Samples.steady PyFloat.half)
                (Samples.upload "Report.PDF" "document") Samples.ready).
  apply (engine_method_follows_dispatch Werkzeug.secure_filename
           posix_save_error
           flask_url_for (Samples.steady PyFloat.half)
           (Samples.upload "Report.PDF" "document") Samples.ready (snd run)
           (fst run)
           [EvSave "static/uploads/Report.PDF";
            EvEngine 0%nat AnalyzePdfForgery "static/uploads/Report.PDF"
              PROCESSED_FOLDER]
           0%nat AnalyzePdfForgery "static/uploads/Report.PDF"
           PROCESSED_FOLDER).
  - reflexivity.
  - reflexivity.
  - simpl. auto.
Defined.

Lemma internal_error_iff_logged_witness :
  let run := analyze Werkzeug.secure_filename posix_save_error flask_url_for
               (Samples.failing Samples.decode_error)
               (Samples.upload "scan.png" "document") Samples.ready in
  let evs :=
    [EvSave "static/uploads/scan.png";
     EvEngine 0%nat AnalyzeDocumentForgery "static/uploads/scan.png"
       PROCESSED_FOLDER;
     EvEngineRaised AnalyzeDocumentForgery Samples.decode_error;
     EvPrint "An error occurred during analysis: cannot identify image file"] in
  (fst run = Ok internal_error_response <-> existsb is_print evs = true) /\
  (forall resp, fst run = Ok resp -> status resp = 500 ->
                resp = internal_error_response).
Proof.
  cbv zeta.
  apply (internal_error_iff_logged Werkzeug.secure_filename posix_save_error
           flask_url_for
           (Samples.failing Samples.decode_error)
           (Samples.upload "scan.png" "document") Samples.ready
           (snd (analyze Werkzeug.secure_filename posix_save_error flask_url_for
                   (Samples.failing Samples.decode_error)
                   (Samples.upload "scan.png" "document") Samples.ready))).
  - reflexivity.
  - reflexivity.
Defined.

Lemma status_tells_what_ran_witness :
  let evs :=
    [EvSave "static/uploads/face.png";
     EvEngine 0%nat PredictImageDeepfake "static/uploads/face.png"
       PROCESSED_FOLDER] in
  (status Samples.image_reply = 200 /\
   exists f self op,
     files_file (Samples.upload "face.png" "image") = Some f /\
     field Samples.image_reply "analysis_type" = Some (JStr (tag op)) /\
     evs = [EvSave (PyStr.os_path_join UPLOAD_FOLDER
                      (Werkzeug.secure_filename (filename f)));
            EvEngine self op
              (PyStr.os_path_join UPLOAD_FOLDER
                 (Werkzeug.secure_filename (filename f)))
              PROCESSED_FOLDER])
  \/
  (status Samples.image_reply = 400 /\ engine_untouched evs /\
   exists msg, Samples.image_reply = error_response msg 400)
  \/
  (status Samples.image_reply = 500 /\
   Samples.image_reply = internal_error_response).
Proof.
  cbv zeta.
  apply (status_tells_what_ran Werkzeug.secure_filename posix_save_error
           flask_url_for
           (Samples.steady PyFloat.half) (Samples.upload "face.png" "image")
           Samples.ready
           (snd (analyze Werkzeug.secure_filename posix_save_error flask_url_for
                   (Samples.steady PyFloat.half)
                   (Samples.upload "face.png" "image") Samples.ready))).
  - vm_compute. reflexivity.
  - reflexivity.
Defined.

(** ** The loop that adds URLs to the page results *)

Section UrlLoop.

Variable url_for : string -> string -> string.

Lemma dict_get_set_same (d : dict) (k : string) (v : json) :
  dict_get (dict_set d k v) k = Some v.
Proof.
  induction d as [|[k0 v0] d IH]; cbn [dict_set dict_get].
  - now rewrite String.eqb_refl.
  - destruct (String.eqb k k0) eqn:E; cbn [dict_get]; rewrite E;
      [reflexivity | exact IH].
Qed.

Lemma dict_get_set_other (d : dict) (k k' : string) (v : json) :
  String.eqb k k' = false ->
  dict_get (dict_set d k' v) k = dict_get d k.
Proof.
  intros Hk. induction d as [|[k0 v0] d IH]; cbn [dict_set dict_get].
  - now rewrite Hk.
  - destruct (String.eqb k' k0) eqn:E; cbn [dict_get].
    + apply String.eqb_eq in E. subst k0. now rewrite Hk.
    + destruct (String.eqb k k0); [reflexivity | exact IH].
Qed.

Lemma dict_get_set_neq (d : dict) (k k' : string) (v : json) :
  k <> k' -> dict_get (dict_set d k' v) k = dict_get d k.
Proof.
  intros Hk. apply dict_get_set_other. now apply String.eqb_neq.
Qed.

Lemma set_url_keeps (d d' : dict) (pk uk k : string) :
  set_url url_for d pk uk = Ok d' -> k <> uk ->
  dict_get d' k = dict_get d k.
Proof.
  unfold set_url, basename_of. intros H Hk.
  destruct (get_truthy d pk); [|now injection H as <-].
  destruct (dict_get d pk) as [[| | | |s| |]|]; try discriminate H.
  injection H as <-. now apply dict_get_set_neq.
Qed.

Lemma set_url_truthy (d d' : dict) (pk uk k : string) :
  set_url url_for d pk uk = Ok d' -> k <> uk ->
  get_truthy d' k = get_truthy d k.
Proof.
  intros H Hk. unfold get_truthy. now rewrite (set_url_keeps _ _ _ _ _ H Hk).
Qed.

Lemma set_url_sets (d d' : dict) (pk uk p : string) :
  set_url url_for d pk uk = Ok d' ->
  dict_get d pk = Some (JStr p) -> p <> "" ->
  dict_get d' uk
  = Some (JStr (url_for "static" ("processed/" ++ PyStr.os_path_basename p))).
Proof.
  unfold set_url, basename_of, get_truthy. intros H Hp Hne. rewrite Hp in H.
  cbn [truthy] in H. apply String.eqb_neq in Hne. rewrite Hne in H.
  cbn [negb] in H. injection H as <-. apply dict_get_set_same.
Qed.

Lemma set_url_skips (d d' : dict) (pk uk : string) :
  set_url url_for d pk uk = Ok d' -> get_truthy d pk = false -> d' = d.
Proof.
  unfold set_url. intros H Hf. rewrite Hf in H. now injection H.
Qed.

(** One statement of the loop raises exactly on a path that is truthy and
    no string, and what it raises is the [TypeError] of
    [os.path.basename] on that value. *)
Lemma set_url_raises (d : dict) (pk uk : string) (e : exn) :
  set_url url_for d pk uk = Raise e <->
  exists v, bad_path d pk v /\ e = TypeError v.
Proof.
  unfold set_url, basename_of, bad_path, get_truthy.
  destruct (dict_get d pk) as [v|].
  2:{ split; [discriminate | intros (v & (H & _) & _); discriminate]. }
  destruct (truthy v) eqn:Hv.
  - split.
    + intros H. exists v.
      destruct v; cbn [truthy] in Hv; try discriminate Hv;
        try discriminate H; injection H as <-;
        (split; [split; [reflexivity | split; [exact Hv | discriminate]]
                | reflexivity]).
    + intros (v' & (Hget & _ & Hstr) & ->). injection Hget as <-.
      destruct v; try reflexivity. now destruct (Hstr s).
  - split; [discriminate|].
    intros (v' & (Hget & Ht & _) & _). injection Hget as <-. congruence.
Qed.

(** Whether or not an iteration raises, it leaves every key alone but the
    two URL keys. *)
Lemma add_urls_keeps (d d' : dict) (r : result unit) (k : string) :
  add_urls url_for d = (r, d') ->
  k <> "original_image_url" -> k <> "analyzed_image_url" ->
  dict_get d' k = dict_get d k.
Proof.
  unfold add_urls. intros H Hk1 Hk2.
  destruct (set_url url_for d _ _) as [d1|e|b] eqn:H1.
  - destruct (set_url url_for d1 _ _) as [d2|e|b] eqn:H2;
      injection H as _ <-.
    + now rewrite (set_url_keeps _ _ _ _ _ H2 Hk2),
                  (set_url_keeps _ _ _ _ _ H1 Hk1).
    + exact (set_url_keeps _ _ _ _ _ H1 Hk1).
    + exact (set_url_keeps _ _ _ _ _ H1 Hk1).
  - now injection H as _ <-.
  - now injection H as _ <-.
Qed.

(** The loop hands on as many results as it was given, and leaves every
    key of every result alone but the two URL keys. *)
Lemma url_loop_length (ds ds' : list dict) (r : result unit) :
  url_loop url_for ds = (r, ds') -> List.length ds' = List.length ds.
Proof.
  revert ds' r. induction ds as [|d ds IH]; intros ds' r H; cbn [url_loop] in H.
  - now injection H as _ <-.
  - destruct (add_urls url_for d) as [[[]|e|b] d1].
    + destruct (url_loop url_for ds) as [r1 ds1] eqn:Hds.
      injection H as _ <-. cbn [List.length]. now rewrite (IH _ _ eq_refl).
    + now injection H as _ <-.
    + now injection H as _ <-.
Qed.

Lemma url_loop_keeps_key (ds ds' : list dict) (r : result unit) (k : string) :
  url_loop url_for ds = (r, ds') ->
  k <> "original_image_url" -> k <> "analyzed_image_url" ->
  map (fun d => dict_get d k) ds' = map (fun d => dict_get d k) ds.
Proof.
  intros H Hk1 Hk2. revert ds' r H.
  induction ds as [|d ds IH]; intros ds' r H; cbn [url_loop] in H.
  - now injection H as _ <-.
  - destruct (add_urls url_for d) as [[[]|e|b] d1] eqn:Hd.
    + destruct (url_loop url_for ds) as [r1 ds1] eqn:Hds.
      injection H as _ <-. cbn [map].
      now rewrite (add_urls_keeps _ _ _ _ Hd Hk1 Hk2), (IH _ _ eq_refl).
    + injection H as _ <-. cbn [map].
      now rewrite (add_urls_keeps _ _ _ _ Hd Hk1 Hk2).
    + injection H as _ <-. cbn [map].
      now rewrite (add_urls_keeps _ _ _ _ Hd Hk1 Hk2).
Qed.

(** The URL loop keeps every entry and its page number. *)
Lemma url_loop_keeps_pages (ds ds' : list dict) (r : result unit) :
  url_loop url_for ds = (r, ds') ->
  map (fun d => dict_get d "page_number") ds'
  = map (fun d => dict_get d "page_number") ds.
Proof.
  intros H. apply (url_loop_keeps_key _ _ _ _ H); discriminate.
Qed.

(** X10.  One iteration of the URL loop changes nothing but the two URL
    keys of the page result: whether it runs through or raises, every key
    other than ['original_image_url'] and ['analyzed_image_url'] keeps its
    value.  The iteration works on the dict alone; files, globals and the
    trace are out of its reach. *)
Theorem add_urls_keeps_other_keys (d d' : dict) (r : result unit)
    (k : string) :
  add_urls url_for d = (r, d') ->
  k <> "original_image_url" -> k <> "analyzed_image_url" ->
  dict_get d' k = dict_get d k.
Proof. exact (add_urls_keeps d d' r k). Qed.

(** X11.  A page result gets a URL for each path it carries: a non-empty
    string under ['original_page_image_path'] (under
    ['analyzed_image_path']) puts the static URL of its base name in the
    processed folder under ['original_image_url'] (under
    ['analyzed_image_url']), and a path that is missing, [None] or empty
    leaves that URL key as it was. *)
Theorem add_urls_url_fields (d d' : dict) :
  add_urls url_for d = (Ok tt, d') ->
  (forall p, dict_get d "original_page_image_path" = Some (JStr p) ->
             p <> "" ->
             dict_get d' "original_image_url"
             = Some (JStr (url_for "static"
                             ("processed/" ++ PyStr.os_path_basename p)))) /\
  (forall p, dict_get d "analyzed_image_path" = Some (JStr p) ->
             p <> "" ->
             dict_get d' "analyzed_image_url"
             = Some (JStr (url_for "static"
                             ("processed/" ++ PyStr.os_path_basename p)))) /\
  (get_truthy d "original_page_image_path" = false ->
   dict_get d' "original_image_url" = dict_get d "original_image_url") /\
  (get_truthy d "analyzed_image_path" = false ->
   dict_get d' "analyzed_image_url" = dict_get d "analyzed_image_url").
Proof.
  unfold add_urls. intros H.
  destruct (set_url url_for d _ _) as [d1|e|b] eqn:H1; try discriminate.
  destruct (set_url url_for d1 _ _) as [d2|e|b] eqn:H2; try discriminate.
  injection H as <-.
  assert (Hother1 : forall k, k <> "original_image_url" ->
                              dict_get d1 k = dict_get d k)
    by (intros k; apply (set_url_keeps _ _ _ _ _ H1)).
  assert (Hother2 : forall k, k <> "analyzed_image_url" ->
                              dict_get d2 k = dict_get d1 k)
    by (intros k; apply (set_url_keeps _ _ _ _ _ H2)).
  repeat split.
  - intros p Hp Hne. rewrite Hother2 by discriminate.
    exact (set_url_sets _ _ _ _ _ H1 Hp Hne).
  - intros p Hp Hne. apply (set_url_sets _ _ _ _ _ H2); [|exact Hne].
    rewrite Hother1 by discriminate. exact Hp.
  - intros Hf. rewrite Hother2 by discriminate.
    now rewrite (set_url_skips _ _ _ _ H1 Hf).
  - intros Hf. rewrite (set_url_skips _ _ _ _ H2).
    + apply Hother1. discriminate.
    + rewrite (set_url_truthy _ _ _ _ _ H1) by discriminate. exact Hf.
Qed.

(** X12.  One iteration of the URL loop raises exactly when one of the two
    paths of the page result is present and truthy without being a string.
    The exception is the [TypeError] of [os.path.basename] on that value,
    whose message names the type of the value; it is never a [KeyError].
    When the first path is the bad one the dict is as it was; when the
    second is, the dict is what the first statement made of it, so a URL
    the first statement assigned stays in the engine's dict. *)
Theorem add_urls_raises_iff (d d' : dict) (e : exn) :
  add_urls url_for d = (Raise e, d') <->
  (exists v,
     bad_path d "original_page_image_path" v /\
     e = TypeError v /\ d' = d)
  \/
  (exists v,
     bad_path d "analyzed_image_path" v /\
     e = TypeError v /\
     set_url url_for d "original_page_image_path" "original_image_url"
       = Ok d').
Proof.
  unfold add_urls.
  destruct (set_url url_for d "original_page_image_path" _)
    as [d1|e1|b1] eqn:H1.
  - assert (Hsame : forall v, bad_path d1 "analyzed_image_path" v
                              <-> bad_path d "analyzed_image_path" v).
    { intros v. unfold bad_path.
      rewrite (set_url_keeps _ _ _ _ "analyzed_image_path" H1)
        by discriminate.
      reflexivity. }
    destruct (set_url url_for d1 "analyzed_image_path" _)
      as [d2|e2|b2] eqn:H2.
    + split; [discriminate|].
      intros [(v & Hbad & _) | (v & Hbad & -> & _)]; exfalso.
      * assert (Hr : set_url url_for d "original_page_image_path"
                       "original_image_url" = Raise (TypeError v))
          by (apply set_url_raises; eauto).
        congruence.
      * assert (Hr : set_url url_for d1 "analyzed_image_path"
                       "analyzed_image_url" = Raise (TypeError v))
          by (apply set_url_raises; exists v; split;
              [now apply Hsame | reflexivity]).
        congruence.
    + apply set_url_raises in H2. destruct H2 as (v & Hbad & ->).
      split.
      * intros H. injection H as <- <-. right. exists v.
        split; [now apply Hsame | auto].
      * intros [(v' & Hbad' & _) | (v' & Hbad' & He & Hd1)].
        -- exfalso.
           assert (Hr : set_url url_for d "original_page_image_path"
                          "original_image_url" = Raise (TypeError v'))
             by (apply set_url_raises; eauto).
           congruence.
        -- injection Hd1 as <-. subst e. apply Hsame in Hbad.
           destruct Hbad as (Hg & _), Hbad' as (Hg' & _).
           rewrite Hg in Hg'. injection Hg' as <-. reflexivity.
    + exfalso. exact (set_url_not_abort _ _ _ _ _ H2).
  - apply set_url_raises in H1. destruct H1 as (v & Hbad & ->). split.
    + intros H. injection H as <- <-. left. exists v. auto.
    + intros [(v' & Hbad' & -> & ->) | (v' & _ & _ & H)];
        [|discriminate H].
      destruct Hbad as (Hg & _), Hbad' as (Hg' & _).
      rewrite Hg in Hg'. injection Hg' as <-. reflexivity.
  - exfalso. exact (set_url_not_abort _ _ _ _ _ H1).
Qed.

End UrlLoop.

Lemma add_urls_keeps_other_keys_witness :
  dict_get Samples.page_one_with_urls "forgery_score"
  = dict_get Samples.page_one "forgery_score".
Proof.
  apply (add_urls_keeps_other_keys flask_url_for Samples.page_one
           Samples.page_one_with_urls (Ok tt) "forgery_score").
  - reflexivity.
  - discriminate.
  - discriminate.
Defined.

Lemma add_urls_url_fields_witness :
  (forall p, dict_get Samples.page_one "original_page_image_path"
             = Some (JStr p) ->
             p <> "" ->
             dict_get Samples.page_one_with_urls "original_image_url"
             = Some (JStr (flask_url_for "static"
                             ("processed/" ++ PyStr.os_path_basename p)))) /\
  (forall p, dict_get Samples.page_one "analyzed_image_path"
             = Some (JStr p) ->
             p <> "" ->
             dict_get Samples.page_one_with_urls "analyzed_image_url"
             = Some (JStr (flask_url_for "static"
                             ("processed/" ++ PyStr.os_path_basename p)))) /\
  (get_truthy Samples.page_one "original_page_image_path" = false ->
   dict_get Samples.page_one_with_urls "original_image_url"
   = dict_get Samples.page_one "original_image_url") /\
  (get_truthy Samples.page_one "analyzed_image_path" = false ->
   dict_get Samples.page_one_with_urls "analyzed_image_url"
   = dict_get Samples.page_one "analyzed_image_url").
Proof.
  apply (add_urls_url_fields flask_url_for Samples.page_one
           Samples.page_one_with_urls).
  reflexivity.
Defined.

(** A page whose second path is the number 7: the iteration raises on the
    second statement, and the dict already has the URL the first statement
    assigned. *)
Lemma add_urls_raises_iff_witness :
  add_urls flask_url_for
    [("original_page_image_path", JStr "static/processed/report_page_1.png");
     ("analyzed_image_path", JInt 7)]
  = (Raise (mkExn "TypeError"
              "expected str, bytes or os.PathLike object, not int"),
     [("original_page_image_path", JStr "static/processed/report_page_1.png");
      ("analyzed_image_path", JInt 7);
      ("original_image_url", JStr "/static/processed/report_page_1.png")]).
Proof.
  apply (proj2 (add_urls_raises_iff flask_url_for _ _ _)).
  right. exists (JInt 7). split.
  - split; [reflexivity|]. split; [reflexivity | discriminate].
  - split; reflexivity.
Defined.

(** ** What the successful responses carry *)

Section Responses.

Variable secure_filename : string -> string.
Variable save_error :
  filesystem -> string -> string -> option (exn * filesystem).
Variable url_for : string -> string -> string.
Variable D : DetectorClass.

(** The URL of an artifact path is [None] exactly when the path is [None]
    or empty. *)
Lemma analyzed_image_url_none (p : option string) :
  analyzed_image_url url_for p = JNone <-> if_truthy p = None.
Proof.
  unfold analyzed_image_url.
  destruct (if_truthy p); split; (discriminate || reflexivity).
Qed.

(** X13.  A response tagged ['pdf'] reports what [analyze_pdf_forgery]
    returned for the stored upload: one entry per result of the engine, in
    the same order, each with every key of the engine's result unchanged
    except the two URL keys the handler adds, together with the sanitised
    file name. *)
Theorem pdf_response_passthrough (req : request) (w w' : world)
    (resp : response) :
  analyze secure_filename save_error url_for D req w = (Ok resp, w') ->
  field resp "analysis_type" = Some (JStr "pdf") ->
  exists f pdf_results results files',
    files_file req = Some f /\
    (let up := PyStr.os_path_join UPLOAD_FOLDER
                 (secure_filename (filename f)) in
     analyze_pdf_forgery D (fs (after_save w f up)) up PROCESSED_FOLDER
       = (Ok pdf_results, files')) /\
    resp = mkResponse
             (JDict [("analysis_type", JStr "pdf");
                     ("results", JList (map JDict results));
                     ("original_filename",
                       JStr (secure_filename (filename f)))])
             200 /\
    List.length results = List.length pdf_results /\
    (forall k, k <> "original_image_url" -> k <> "analyzed_image_url" ->
               map (fun d => dict_get d k) results
               = map (fun d => dict_get d k) pdf_results).
Proof.
  intros Hrun Hfield.
  destruct (pdf_response_from_call secure_filename save_error url_for D req
              w w' resp Hrun Hfield)
    as (f & t & pdf_results & results & files' & Hacc & Hcall & Hloop & ->).
  exists f, pdf_results, results, files'.
  split; [exact (proj1 Hacc)|]. split; [exact Hcall|].
  split; [reflexivity|].
  split; [exact (url_loop_length _ _ _ _ Hloop)|].
  intros k Hk1 Hk2. exact (url_loop_keeps_key _ _ _ _ k Hloop Hk1 Hk2).
Qed.

(** X14.  A response tagged ['document'] carries the verdict string and
    the score of [analyze_document_forgery] for the stored upload as they
    are: the handler applies no threshold of its own.  It explains a
    forgery exactly when the verdict is the string "Suspicious Forgery",
    and its analyzed-image URL is [None] exactly when the engine gave no
    path or an empty one. *)
Theorem document_response_passthrough (req : request) (w w' : world)
    (resp : response) :
  analyze secure_filename save_error url_for D req w = (Ok resp, w') ->
  field resp "analysis_type" = Some (JStr "document") ->
  exists f score verdict path files',
    files_file req = Some f /\
    (let up := PyStr.os_path_join UPLOAD_FOLDER
                 (secure_filename (filename f)) in
     analyze_document_forgery D (fs (after_save w f up)) up PROCESSED_FOLDER
       = (Ok (score, verdict, path), files')) /\
    status resp = 200 /\
    field resp "verdict" = Some (JStr verdict) /\
    field resp "forgery_score" = Some (JStr (PyFloat.format_2f score)) /\
    (field resp "explanation"
       = Some (JStr "ELA detected inconsistencies in JPEG compression levels, suggesting a potential digital modification.")
     <-> verdict = "Suspicious Forgery") /\
    field resp "original_image_url"
      = Some (JStr (url_for "static"
                      ("uploads/" ++ secure_filename (filename f)))) /\
    (field resp "analyzed_image_url" = Some JNone <-> if_truthy path = None).
Proof.
  intros Hrun Hfield.
  destruct (document_response_from_call secure_filename save_error url_for D
              req w w' resp Hrun Hfield)
    as (f & t & score & verdict & path & files' & Hacc & Hcall & ->).
  exists f, score, verdict, path, files'.
  split; [exact (proj1 Hacc)|]. split; [exact Hcall|].
  unfold field.
  cbn [body status dict_get String.eqb Ascii.eqb Bool.eqb].
  repeat split.
  + unfold document_explanation.
    destruct (String.eqb _ "Suspicious Forgery") eqn:E;
      [intros _; now apply String.eqb_eq | discriminate].
  + intros ->. reflexivity.
  + intros H. injection H as H. now apply analyzed_image_url_none.
  + intros H. f_equal. now apply analyzed_image_url_none.
Qed.

(** X15.  In a response tagged ['image'] the explanation always agrees
    with the verdict, both being read off the same comparison with 0.5;
    the original-image URL is the static URL of the stored upload, and the
    analyzed-image URL is [None] exactly when the engine gave no highlight
    path or an empty one. *)
Theorem image_response_consistent (req : request) (w w' : world)
    (resp : response) :
  analyze secure_filename save_error url_for D req w = (Ok resp, w') ->
  field resp "analysis_type" = Some (JStr "image") ->
  exists f p h files',
    files_file req = Some f /\
    (let up := PyStr.os_path_join UPLOAD_FOLDER
                 (secure_filename (filename f)) in
     predict_image_deepfake D (fs (after_save w f up)) up PROCESSED_FOLDER
       = (Ok (p, h), files')) /\
    status resp = 200 /\
    (field resp "verdict" = Some (JStr "DeepFake Detected") <->
     field resp "explanation"
       = Some (JStr "The model detected subtle artifacts consistent with AI-generated images.")) /\
    field resp "original_image_url"
      = Some (JStr (url_for "static"
                      ("uploads/" ++ secure_filename (filename f)))) /\
    (field resp "analyzed_image_url" = Some JNone <-> if_truthy h = None).
Proof.
  intros Hrun Hfield.
  destruct (image_response_inv secure_filename save_error url_for D req w w'
              resp Hrun Hfield)
    as (f & t & p & h & files & files' & Hacc & Hcall & -> & ->).
  exists f, p, h, files'. split; [exact (proj1 Hacc)|].
  split; [exact Hcall|].
  unfold field, image_verdict, image_explanation.
  cbn [body status dict_get String.eqb Ascii.eqb Bool.eqb].
  repeat split.
  - destruct (PyFloat.gt p PyFloat.half); [reflexivity | discriminate].
  - destruct (PyFloat.gt p PyFloat.half); [reflexivity | discriminate].
  - intros H. injection H as H. now apply analyzed_image_url_none.
  - intros H. f_equal. now apply analyzed_image_url_none.
Qed.

End Responses.

Lemma pdf_response_passthrough_witness :
  exists f pdf_results results files',
    files_file (Samples.upload "report.pdf" "document") = Some f /\
    (let up := PyStr.os_path_join UPLOAD_FOLDER
                 (Werkzeug.secure_filename (filename f)) in
     analyze_pdf_forgery (Samples.steady PyFloat.half)
       (fs (after_save Samples.ready f up)) up PROCESSED_FOLDER
       = (Ok pdf_results, files')) /\
    Samples.pdf_reply
      = mkResponse
          (JDict [("analysis_type", JStr "pdf");
                  ("results", JList (map JDict results));
                  ("original_filename",
                    JStr (Werkzeug.secure_filename (filename f)))])
          200 /\
    List.length results = List.length pdf_results /\
    (forall k, k <> "original_image_url" -> k <> "analyzed_image_url" ->
               map (fun d => dict_get d k) results
               = map (fun d => dict_get d k) pdf_results).
Proof.
  apply (pdf_response_passthrough Werkzeug.secure_filename posix_save_error
           flask_url_for
           (Samples.steady PyFloat.half)
           (Samples.upload "report.pdf" "document") Samples.ready
           (snd (analyze Werkzeug.secure_filename posix_save_error flask_url_for
                   (Samples.steady PyFloat.half)
                   (Samples.upload "report.pdf" "document") Samples.ready))
           Samples.pdf_reply).
  - vm_compute. reflexivity.
  - vm_compute. reflexivity.
Defined.

Lemma document_response_passthrough_witness :
  exists f score verdict path files',
    files_file (Samples.upload "scan.png" "document") = Some f /\
    (let up := PyStr.os_path_join UPLOAD_FOLDER
                 (Werkzeug.secure_filename (filename f)) in
     analyze_document_forgery (Samples.steady PyFloat.half)
       (fs (after_save Samples.ready f up)) up PROCESSED_FOLDER
       = (Ok (score, verdict, path), files')) /\
    status Samples.document_reply = 200 /\
    field Samples.document_reply "verdict" = Some (JStr verdict) /\
    field Samples.document_reply "forgery_score"
      = Some (JStr (PyFloat.format_2f score)) /\
    (field Samples.document_reply "explanation"
       = Some (JStr "ELA detected inconsistencies in JPEG compression levels, suggesting a potential digital modification.")
     <-> verdict = "Suspicious Forgery") /\
    field Samples.document_reply "original_image_url"
      = Some (JStr (flask_url_for "static"
                      ("uploads/" ++ Werkzeug.secure_filename (filename f)))) /\
    (field Samples.document_reply "analyzed_image_url" = Some JNone
     <-> if_truthy path = None).
Proof.
  apply (document_response_passthrough Werkzeug.secure_filename
           posix_save_error
           flask_url_for (Samples.steady PyFloat.half)
           (Samples.upload "scan.png" "document") Samples.ready
           (snd (analyze Werkzeug.secure_filename posix_save_error flask_url_for
                   (Samples.steady PyFloat.half)
                   (Samples.upload "scan.png" "document") Samples.ready))
           Samples.document_reply).
  - vm_compute. reflexivity.
  - vm_compute. reflexivity.
Defined.

Lemma image_response_consistent_witness :
  exists f p h files',
    files_file (Samples.upload "face.png" "image") = Some f /\
    (let up := PyStr.os_path_join UPLOAD_FOLDER
                 (Werkzeug.secure_filename (filename f)) in
     predict_image_deepfake (Samples.steady PyFloat.half)
       (fs (after_save Samples.ready f up)) up PROCESSED_FOLDER
       = (Ok (p, h), files')) /\
    status Samples.image_reply = 200 /\
    (field Samples.image_reply "verdict" = Some (JStr "DeepFake Detected") <->
     field Samples.image_reply "explanation"
       = Some (JStr "The model detected subtle artifacts consistent with AI-generated images.")) /\
    field Samples.image_reply "original_image_url"
      = Some (JStr (flask_url_for "static"
                      ("uploads/" ++ Werkzeug.secure_filename (filename f)))) /\
    (field Samples.image_reply "analyzed_image_url" = Some JNone
     <-> if_truthy h = None).
Proof.
  apply (image_response_consistent Werkzeug.secure_filename posix_save_error
           flask_url_for
           (Samples.steady PyFloat.half) (Samples.upload "face.png" "image")
           Samples.ready
           (snd (analyze Werkzeug.secure_filename posix_save_error flask_url_for
                   (Samples.steady PyFloat.half)
                   (Samples.upload "face.png" "image") Samples.ready))
           Samples.image_reply).
  - vm_compute. reflexivity.
  - vm_compute. reflexivity.
Defined.

(** ** Where uploads go, and how many *)

Section Uploads.

Variable secure_filename : string -> string.
Variable save_error :
  filesystem -> string -> string -> option (exn * filesystem).
Variable url_for : string -> string -> string.
Variable D : DetectorClass.

Lemma no_slash_no_leading_slash (name : string) :
  PyStr.contains "/" name = false -> PyStr.starts_with_slash name = false.
Proof.
  destruct name as [|c name]; [reflexivity|].
  cbn [PyStr.contains PyStr.starts_with_slash].
  rewrite (Ascii.eqb_sym c "/"). now destruct (Ascii.eqb "/" c).
Qed.

(** Joining the upload folder with a name that has no slash puts the name
    directly under the folder. *)
Lemma join_upload_folder (name : string) :
  PyStr.contains "/" name = false ->
  PyStr.os_path_join UPLOAD_FOLDER name = "static/uploads/" ++ name /\
  PyStr.os_path_basename (PyStr.os_path_join UPLOAD_FOLDER name) = name.
Proof.
  intros Hno.
  assert (Hjoin : PyStr.os_path_join UPLOAD_FOLDER name
                  = "static/uploads/" ++ name).
  { unfold PyStr.os_path_join. now rewrite (no_slash_no_leading_slash _ Hno). }
  split; [exact Hjoin|]. rewrite Hjoin. unfold PyStr.os_path_basename.
  change ("static/uploads/" ++ name)
    with ("static/uploads" ++ String "/" name).
  now rewrite (rsplit_last_app "/" "static/uploads" name Hno).
Qed.

(** What an accepted request adds to the trace: nothing when the write
    raised, and otherwise the save of its upload, no other save, and at
    most one engine call. *)
Lemma accepted_saves_first (req : request) (f : FileStorage) (t : string)
    (w : world) :
  accepted req f t ->
  let up := PyStr.os_path_join UPLOAD_FOLDER (secure_filename (filename f)) in
  let w' := snd (analyze secure_filename save_error url_for D req w) in
  match save_error (fs w) up (stream f) with
  | Some _ => added w w' []
  | None =>
      exists tail,
        added w w' (EvSave up :: tail) /\
        existsb is_save tail = false /\
        (List.length (filter is_engine_call tail) <= 1)%nat
  end.
Proof.
  intros Hacc. cbn zeta.
  destruct (analyze secure_filename save_error url_for D req w)
    as [out w'] eqn:Hrun.
  cbn [snd].
  destruct (accepted_outcomes secure_filename save_error url_for D req f t
              w w' out Hacc Hrun)
    as [(e & files & Hsave & _ & ->) | (Hsave & Hrest)]; rewrite Hsave.
  { apply added_failed_save. }
  destruct Hrest as [(_ & _ & ->) | (ext & _ & Hrest)].
  { exists []. repeat split; auto. }
  destruct Hrest as [(_ & _ & _ & ->) | [(_ & _ & _ & _ & ->)
                                        | (op & _ & Hrest)]].
  { exists []. repeat split; auto. }
  { exists []. repeat split; auto. }
  destruct Hrest as [(_ & _ & Hadd) | (self & _ & Hrest)].
  { eexists. split; [exact Hadd|]. split; [reflexivity | cbn; auto]. }
  destruct Hrest as [(? & _ & _ & Hadd)
                    | [(? & _ & _ & Hadd)
                      | [(? & _ & _ & Hadd) | (? & _ & _ & _ & _ & Hadd)]]];
    eexists; (split; [exact Hadd|]); (split; [reflexivity | cbn; auto]).
Qed.

(** X16.  When the sanitised name has no slash and writing the upload goes
    through, the upload is stored directly inside the upload folder, at
    [static/uploads/<name>], and the base name of the stored path is the
    sanitised name itself, the one the responses use for the
    original-image URL. *)
Theorem upload_stays_in_folder (req : request) (f : FileStorage)
    (t : string) (w : world) :
  accepted req f t ->
  PyStr.contains "/" (secure_filename (filename f)) = false ->
  save_error (fs w)
    (PyStr.os_path_join UPLOAD_FOLDER (secure_filename (filename f)))
    (stream f) = None ->
  exists tail,
    added w (snd (analyze secure_filename save_error url_for D req w))
      (EvSave ("static/uploads/" ++ secure_filename (filename f)) :: tail) /\
    existsb is_save tail = false /\
    PyStr.os_path_basename
      ("static/uploads/" ++ secure_filename (filename f))
    = secure_filename (filename f).
Proof.
  intros Hacc Hno Hsave.
  destruct (join_upload_folder _ Hno) as [Hjoin Hbase].
  pose proof (accepted_saves_first req f t w Hacc) as H.
  cbn zeta in H. rewrite Hsave in H.
  destruct H as (tail & Hadd & Hnosave & _).
  rewrite Hjoin in Hadd, Hbase. exists tail. auto.
Qed.

Lemma is_accepted_iff (req : request) :
  is_accepted (PostAnalyze req) = true <-> exists f t, accepted req f t.
Proof.
  unfold is_accepted, accepted. split.
  - destruct (files_file req) as [f|]; [|discriminate].
    destruct (if_truthy (form_analysis_type req)) as [t|]; [|discriminate].
    intros Hok. exists f, t. repeat split; trivial.
    destruct (filename f); [discriminate Hok | reflexivity].
  - intros (f & t & -> & _ & -> & Hok). exact Hok.
Qed.

Lemma no_save_filter (evs : list event) :
  existsb is_save evs = false -> filter is_save evs = [].
Proof.
  induction evs as [|e evs IH]; [reflexivity|].
  cbn [existsb filter]. intros H. apply orb_false_iff in H.
  destruct H as [He Ht]. rewrite He. now apply IH.
Qed.

(** One request: at most one save, and only when it is accepted; at most
    as many engine calls as saves; and exactly one save for an accepted
    request when writing never fails. *)
Lemma request_counts (r : http_request) (w : world) :
  exists evs,
    added w (snd (handle secure_filename save_error url_for D r w)) evs /\
    (List.length (filter is_save evs)
     <= (if is_accepted r then 1 else 0))%nat /\
    (List.length (filter is_engine_call evs)
     <= List.length (filter is_save evs))%nat /\
    ((forall files path data, save_error files path data = None) ->
     List.length (filter is_save evs)
     = (if is_accepted r then 1 else 0)%nat).
Proof.
  destruct r as [|req].
  { exists []. cbn. split; [apply added_nil | auto]. }
  assert (Hsnd : snd (handle secure_filename save_error url_for D
                        (PostAnalyze req) w)
                 = snd (analyze secure_filename save_error url_for D req w)).
  { cbn [handle].
    now destruct (analyze secure_filename save_error url_for D req w)
      as [[?|?|?] ?]. }
  rewrite Hsnd.
  destruct (is_accepted (PostAnalyze req)) eqn:Hacc.
  - apply is_accepted_iff in Hacc. destruct Hacc as (f & t & Hacc).
    pose proof (accepted_saves_first req f t w Hacc) as H. cbn zeta in H.
    destruct (save_error (fs w) _ (stream f)) as [[e files]|] eqn:Hsave.
    + exists []. split; [exact H|]. cbn. repeat split; auto.
      intros Hnever. rewrite Hnever in Hsave. discriminate.
    + destruct H as (tail & Hadd & Hnosave & Hcalls).
      eexists. split; [exact Hadd|].
      cbn [filter is_save is_engine_call].
      rewrite (no_save_filter _ Hnosave). cbn [List.length].
      repeat split; auto.
  - exists [].
    destruct (request_cases req) as [Hbad | Hyes].
    + destruct (analyze_rejected secure_filename save_error url_for D req w
                  Hbad)
        as (msg & _ & Hrej).
      rewrite Hrej. cbn. split; [apply added_nil | auto].
    + apply is_accepted_iff in Hyes. congruence.
Qed.

(** X17.  Over any sequence of requests the server stores at most one
    upload per accepted request and none for the others, and it never
    makes more engine calls than it has stored uploads; when writing never
    fails it stores exactly one upload per accepted request. *)
Theorem saves_bounded_by_accepted_requests (rs : list http_request)
    (w : world) :
  exists evs,
    added w (snd (serve secure_filename save_error url_for D rs w)) evs /\
    (List.length (filter is_save evs)
     <= List.length (filter is_accepted rs))%nat /\
    (List.length (filter is_engine_call evs)
     <= List.length (filter is_save evs))%nat /\
    ((forall files path data, save_error files path data = None) ->
     List.length (filter is_save evs)
     = List.length (filter is_accepted rs)).
Proof.
  revert w. induction rs as [|r rs IH]; intros w.
  - exists []. cbn. split; [apply added_nil | auto].
  - destruct (request_counts r w) as (e1 & H1 & Hs1 & Hc1 & Hn1).
    cbn [serve].
    destruct (handle secure_filename save_error url_for D r w) as [o w1].
    cbn [snd] in H1.
    destruct (IH w1) as (e2 & H2 & Hs2 & Hc2 & Hn2).
    destruct (serve secure_filename save_error url_for D rs w1) as [os w2].
    cbn [snd] in *.
    exists (e1 ++ e2)%list. split; [exact (added_trans _ _ _ _ _ H1 H2)|].
    rewrite !filter_app, !length_app.
    cbn [filter].
    split; [|split].
    + destruct (is_accepted r); cbn [List.length]; lia.
    + lia.
    + intros Hnever. specialize (Hn1 Hnever). specialize (Hn2 Hnever).
      destruct (is_accepted r); cbn [List.length]; lia.
Qed.

End Uploads.

Lemma upload_stays_in_folder_witness :
  exists tail,
    added Samples.ready
      (snd (analyze Werkzeug.secure_filename posix_save_error flask_url_for
              (Samples.steady PyFloat.half)
              (Samples.upload "../../etc/passwd.png" "image") Samples.ready))
      (EvSave ("static/uploads/"
               ++ Werkzeug.secure_filename "../../etc/passwd.png") :: tail) /\
    existsb is_save tail = false /\
    PyStr.os_path_basename
      ("static/uploads/" ++ Werkzeug.secure_filename "../../etc/passwd.png")
    = Werkzeug.secure_filename "../../etc/passwd.png".
Proof.
  apply (upload_stays_in_folder Werkzeug.secure_filename posix_save_error
           flask_url_for
           (Samples.steady PyFloat.half)
           (Samples.upload "../../etc/passwd.png" "image")
           (mkFile "../../etc/passwd.png" "data") "image" Samples.ready).
  - repeat split.
  - reflexivity.
  - reflexivity.
Defined.

(** With a disk that takes every write, two accepted uploads out of four
    requests leave two saves. *)
Lemma saves_bounded_by_accepted_requests_witness :
  let rs := [PostAnalyze (Samples.upload "face.png" "image");
             GetIndex;
             PostAnalyze (Samples.upload "setup.exe" "image");
             PostAnalyze (Samples.upload "report.pdf" "document")] in
  exists evs,
    added Samples.ready
      (snd (serve Werkzeug.secure_filename (fun _ _ _ => None) flask_url_for
              (Samples.steady PyFloat.half) rs Samples.ready)) evs /\
    (List.length (filter is_save evs)
     <= List.length (filter is_accepted rs))%nat /\
    (List.length (filter is_engine_call evs)
     <= List.length (filter is_save evs))%nat /\
    ((forall files path data : string,
        (fun _ _ _ : string => @None (exn * filesystem)) files path data
        = None) ->
     List.length (filter is_save evs)
     = List.length (filter is_accepted rs)).
Proof.
  cbv zeta.
  destruct (saves_bounded_by_accepted_requests Werkzeug.secure_filename
              (fun _ _ _ => None) flask_url_for (Samples.steady PyFloat.half)
              [PostAnalyze (Samples.upload "face.png" "image");
               GetIndex;
               PostAnalyze (Samples.upload "setup.exe" "image");
               PostAnalyze (Samples.upload "report.pdf" "document")]
              Samples.ready)
    as (evs & Hadd & Hle & Hcalls & Heq).
  exists evs. repeat split; trivial.
  intros _. apply Heq. reflexivity.
Defined.

(** ** Names the sanitiser leaves with a dot *)

Section AlwaysAnswered.

Variable secure_filename : string -> string.
Variable save_error :
  filesystem -> string -> string -> option (exn * filesystem).
Variable url_for : string -> string -> string.
Variable D : DetectorClass.

(** X18.  When the sanitised name of the upload still has a dot and
    writing the upload goes through, no [Exception] leaves [analyze]: it
    answers with a JSON response of status 200, 400 or 500, whatever the
    detector raises.  The one other way out is a [BaseException] that is
    no [Exception], which the engine method the request selects has ended
    in. *)
Theorem dotted_names_always_answered (req : request) (w : world) :
  (forall f, files_file req = Some f ->
             PyStr.contains "." (secure_filename (filename f)) = true /\
             save_error (fs w)
               (PyStr.os_path_join UPLOAD_FOLDER
                  (secure_filename (filename f)))
               (stream f) = None) ->
  (exists resp,
     fst (analyze secure_filename save_error url_for D req w) = Ok resp /\
     (status resp = 200 \/ status resp = 400 \/ status resp = 500))
  \/
  (exists b f t ext op,
     fst (analyze secure_filename save_error url_for D req w) = Abort b /\
     accepted req f t /\
     nth_error (PyStr.rsplit1 "." (secure_filename (filename f))) 1
       = Some ext /\
     selects ext t op /\
     let up := PyStr.os_path_join UPLOAD_FOLDER
                 (secure_filename (filename f)) in
     engine_aborts D op (fs (after_save w f up)) up PROCESSED_FOLDER b).
Proof.
  intros Hdot.
  destruct (analyze secure_filename save_error url_for D req w)
    as [out w'] eqn:Hrun.
  cbn [fst].
  destruct (request_cases req) as [Hbad | (f & t & Hacc)].
  - destruct (analyze_rejected secure_filename save_error url_for D req w
                Hbad)
      as (msg & _ & Hrej).
    rewrite Hrej in Hrun. injection Hrun as <- _.
    left. eexists. split; [reflexivity | auto].
  - destruct (Hdot f (proj1 Hacc)) as [Hhas Hwritten].
    destruct (accepted_outcomes secure_filename save_error url_for D req f t
                w w' out Hacc Hrun)
      as [(e & files & Hsave & _) | (_ & Hrest)]; [congruence|].
    destruct Hrest as [(_ & Hext & _) | (ext & Hext & Hrest)].
    { apply extension_none in Hext. congruence. }
    destruct Hrest as [(-> & _) | [(-> & _) | (op & Hsel & Hrest)]];
      try (left; eexists; split; [reflexivity | auto]).
    destruct Hrest as [(_ & -> & _) | (self & _ & Hrest)];
      try (left; eexists; split; [reflexivity | auto]).
    destruct Hrest as [(? & _ & -> & _)
                      | [(b & Hab & -> & _)
                        | [(? & _ & -> & _) | (resp & -> & Hst & _)]]];
      try (left; eexists; split; [reflexivity | auto]).
    right. exists b, f, t, ext, op. cbn zeta. auto 6.
Qed.

End AlwaysAnswered.

Lemma dotted_names_always_answered_witness :
  (exists resp,
     fst (analyze Werkzeug.secure_filename posix_save_error flask_url_for
            (Samples.failing Samples.decode_error)
            (Samples.upload "holiday photo.JPG" "image") Samples.ready)
     = Ok resp /\
     (status resp = 200 \/ status resp = 400 \/ status resp = 500))
  \/
  (exists b f t ext op,
     fst (analyze Werkzeug.secure_filename posix_save_error flask_url_for
            (Samples.failing Samples.decode_error)
            (Samples.upload "holiday photo.JPG" "image") Samples.ready)
     = Abort b /\
     accepted (Samples.upload "holiday photo.JPG" "image") f t /\
     nth_error (PyStr.rsplit1 "." (Werkzeug.secure_filename (filename f))) 1
       = Some ext /\
     selects ext t op /\
     let up := PyStr.os_path_join UPLOAD_FOLDER
                 (Werkzeug.secure_filename (filename f)) in
     engine_aborts (Samples.failing Samples.decode_error) op
       (fs (after_save Samples.ready f up)) up PROCESSED_FOLDER b).
Proof.
  apply (dotted_names_always_answered Werkzeug.secure_filename
           posix_save_error flask_url_for
           (Samples.failing Samples.decode_error)
           (Samples.upload "holiday photo.JPG" "image") Samples.ready).
  intros f Hf. injection Hf as <-. split; reflexivity.
Defined.

(** ** Two requests that end in an exception *)

(** A detector whose document analysis calls [sys.exit(1)]: the
    [SystemExit] goes through the [except Exception] clause, nothing is
    printed and no response is built. *)
Lemma system_exit_passes_through :
  handle Werkzeug.secure_filename posix_save_error flask_url_for
    (Samples.aborting Samples.system_exit)
    (PostAnalyze (Samples.upload "scan.png" "document")) Samples.ready
  = (Aborted Samples.system_exit,
     mkWorld [("static/uploads/scan.png", "data")] (Some 0%nat) 1%nat
       (trace Samples.ready ++
        [EvSave "static/uploads/scan.png";
         EvEngine 0%nat AnalyzeDocumentForgery "static/uploads/scan.png"
           PROCESSED_FOLDER;
         EvEngineAborted AnalyzeDocumentForgery Samples.system_exit])).
Proof. reflexivity. Qed.

(** An upload whose sanitised name is 256 characters long passes every
    check, and writing it raises [OSError] outside the [try] block: the
    request ends in an unhandled exception, nothing is stored and the
    engine is not called. *)
Lemma long_name_upload_unhandled :
  let name := PyStr.of_chars (repeat "a"%char 252) ++ ".pdf" in
  allowed_file name = true /\
  String.length (Werkzeug.secure_filename name) = 256%nat /\
  handle Werkzeug.secure_filename posix_save_error flask_url_for
    (Samples.steady PyFloat.half)
    (PostAnalyze (Samples.upload name "document")) Samples.ready
  = (Unhandled
       (mkExn "OSError"
          ("[Errno 36] File name too long: 'static/uploads/" ++ name ++ "'")),
     Samples.ready).
Proof. cbv zeta. repeat split; vm_compute; reflexivity. Qed.

